(** * The engine package of mx3: field assembly and torque evaluation

    A shallow embedding of [engine/engine.go]: the package-level variables
    become one record of state, every function of the file a computation in
    a state-and-fatal-error monad, and the CUDA kernels and the other code
    the file calls but does not contain are the fields of one interface. *)

From Stdlib Require Import ZArith Floats.PrimFloat Floats.SpecFloat Floats.FloatOps.
From stdpp Require Import base strings list gmap pretty.

Local Open Scope Z_scope.
#[local] Set Warnings "-inexact-float".

(** ** Go values *)

Module Go.

(** [int] is 64 bits wide on the platforms CUDA runs on. *)
Definition int_min : Z := - 2 ^ 63.
Definition int_max : Z := 2 ^ 63 - 1.

(** Two's-complement wrap-around of an [int] result. *)
Definition wrap (z : Z) : Z := (z + 2 ^ 63) mod 2 ^ 64 - 2 ^ 63.

(** The conversion [float64(n)]: the nearest binary64 value. *)
Definition float64_of_int (n : Z) : float :=
  SF2Prim (binary_normalize prec emax n 0 false).

(** [func() float64] and [func() [3]float64]: closures without arguments. *)
Definition func (A : Type) : Type := unit -> A.

(** An array [[3]T], indexed by the constants 0, 1 and 2. *)
Record arr3 (A : Type) : Type := Arr3 { at0 : A; at1 : A; at2 : A }.
Arguments Arr3 {A} _ _ _.
Arguments at0 {A} _.
Arguments at1 {A} _.
Arguments at2 {A} _.

Inductive index3 : Set := I0 | I1 | I2.

Definition get {A : Type} (a : arr3 A) (i : index3) : A :=
  match i with I0 => at0 a | I1 => at1 a | I2 => at2 a end.

(** [==] on [[3]int]. *)
Definition int3_eqb (a b : arr3 Z) : bool :=
  (at0 a =? at0 b) && (at1 a =? at1 b) && (at2 a =? at2 b).

(** [==] on [float64] is IEEE equality: [-0 == 0], and NaN equals nothing. *)
Definition float64_eqb (x y : float) : bool := PrimFloat.eqb x y.

(** [==] on [[3]float64]: component-wise. *)
Definition float3_eqb (a b : arr3 float) : bool :=
  float64_eqb (at0 a) (at0 b) && float64_eqb (at1 a) (at1 b)
  && float64_eqb (at2 a) (at2 b).

End Go.

Notation "a .[ i ]" := (Go.get a i) (at level 1, left associativity, format "a .[ i ]").

(** Modelled from the spec: the axis constants [X], [Y] and [Z] are
    declared in another file of the package.  The spec has the accessors
    return "[x, y, z] reversed from internal [z, y, x] storage order", and
    the accessors are commented "swaps XYZ": the constants are 0, 1, 2. *)
Module Axis.
Definition X : Go.index3 := Go.I0.
Definition Y : Go.index3 := Go.I1.
Definition Z : Go.index3 := Go.I2.
End Axis.

(** ** The mesh of package data *)

Module data.

(** Modelled from the spec: the type [data.Mesh] is not in this file.  The
    spec gives "(nx, ny, nz) cell counts, (dx, dy, dz) cell size" as its
    content. *)
Record Mesh : Type := { gridSize : Go.arr3 Z; cellSize : Go.arr3 float }.

(** Modelled from the spec: [data.NewMesh] is not in this file.  "Mesh
    construction: (nx, ny, nz, dx, dy, dz) -> Mesh"; the arguments are
    stored in the order they are given. *)
Definition NewMesh (N0 N1 N2 : Z) (c0 c1 c2 : float) : Mesh :=
  {| gridSize := Go.Arr3 N0 N1 N2; cellSize := Go.Arr3 c0 c1 c2 |}.

(** Modelled from the spec: the reader [Mesh.Size] of the cell counts. *)
Definition Size (m : Mesh) : Go.arr3 Z := gridSize m.

(** Modelled from the spec: the reader [Mesh.CellSize] of the cell size. *)
Definition CellSize (m : Mesh) : Go.arr3 float := cellSize m.

(** Modelled from the spec: [Mesh.WorldSize] is not in this file.  "World
    size = cell count x cell size per axis". *)
Definition WorldSize (m : Mesh) : Go.arr3 float :=
  Go.Arr3 (Go.float64_of_int (Go.at0 (gridSize m)) * Go.at0 (cellSize m))%float
          (Go.float64_of_int (Go.at1 (gridSize m)) * Go.at1 (cellSize m))%float
          (Go.float64_of_int (Go.at2 (gridSize m)) * Go.at2 (cellSize m))%float.

End data.

(** ** What the file calls and does not contain

    The kernels of package cuda work on device buffers in place.  Here a
    buffer is a value, and a kernel maps the old contents of its
    destination and its inputs to the new contents of the destination.
    The destination a caller hands to a quantity is not one of the
    buffers the engine owns.  The other fields are the constants and the
    constructors of the package that this file uses and does not
    declare. *)

Class Extern : Type := {
  Slice : Type;             (* contents of a *data.Slice *)
  float32 : Type;
  Bytes : Type;             (* the region table on the device *)
  DemagConvolution : Type;
  nil_Slice : Slice;
  nil_Bytes : Bytes;
  nil_Demag : DemagConvolution;
  to_float32 : float -> float32;
  Mu0 : float;
  MAXREG : nat;             (* number of rows of a parameter table *)
  UserString : data.Mesh -> string;
  M_init : data.Mesh -> Slice;
  regions_init : data.Mesh -> Bytes;
  staggeredMask : data.Mesh -> string -> string -> Slice;
  cuda_NewSlice : nat -> data.Mesh -> Slice;
  cuda_GPUCopy : Slice -> Slice;
  cuda_NewDemag : data.Mesh -> DemagConvolution;
  cuda_Exec : DemagConvolution -> Slice -> Slice -> option Slice -> float -> Slice;
  cuda_Zero : Slice -> Slice;
  cuda_AddExchange : Slice -> Slice -> Slice -> float -> float -> Slice;
  cuda_AddDMI : Slice -> Slice -> float -> float -> Slice;
  cuda_AddUniaxialAnisotropy :
    Slice -> Slice -> list float -> list (Go.arr3 float) -> Bytes -> Slice;
  cuda_AddConst : Slice -> float32 -> float32 -> float32 -> Slice;
  cuda_Madd2 : Slice -> Slice -> Slice -> float32 -> float32 -> Slice;
  cuda_LLTorque : Slice -> Slice -> Slice -> float32 -> Slice;
  cuda_AddZhangLiTorque :
    Slice -> Slice -> Go.arr3 float -> float -> option Slice -> float -> float -> Slice
}.

(** ** What an execution leaves behind *)

Inductive kernel : Set :=
| KExec | KZero | KAddExchange | KAddDMI | KAddUniaxialAnisotropy
| KAddConst | KMadd2 | KLLTorque | KAddZhangLiTorque.

Inductive event : Set :=
| EvKernel (k : kernel)                       (* a kernel was launched *)
| EvPrintln (msg : string)                    (* log.Println *)
| EvArm (cansave : bool)                      (* Table.arm *)
| EvNotifySave (q : string) (cansave : bool)  (* notifySave *)
| EvRegister (q : string)                     (* a quantity handed its value to the output *)
| EvTouch (cansave : bool).                   (* Table.touch *)

(** The closure assigned to a [post_update] field; the file has one. *)
Inductive hook : Set := Ku1_hook.

Section Engine.

Context `{!Extern}.

(** ** Region-indexed parameters *)

(** Modelled from the spec: the type [ScalarParam] is not in this file.
    The spec describes "a mapping from region-id to value ... size fixed
    at a small constant max-region-count" with an "optional
    post_update(region) callback [that] fires synchronously whenever a
    region's value is written". *)
Record ScalarParam : Type := {
  sp_name : string;
  sp_unit : string;
  sp_table : list float;
  post_update : option hook
}.

(** Modelled from the spec: the constructor [scalarParam] is not in this
    file; a new table holds zeros and has no callback. *)
Definition scalarParam (name unit : string) : ScalarParam :=
  {| sp_name := name; sp_unit := unit;
     sp_table := replicate MAXREG 0%float; post_update := None |}.

(** Modelled from the spec: the type [VectorParam] is not in this file;
    "vector: 3 floats" per region. *)
Record VectorParam : Type := {
  vp_name : string;
  vp_unit : string;
  vp_table : list (Go.arr3 float)
}.

(** Modelled from the spec: the constructor [vectorParam] is not in this
    file; a new table holds zero vectors. *)
Definition vectorParam (name unit : string) : VectorParam :=
  {| vp_name := name; vp_unit := unit;
     vp_table := replicate MAXREG (Go.Arr3 0 0 0)%float |}.

Record extField : Type := { mask : Slice; mul : Go.func float }.

(** ** The package-level variables

    Left out, as no function of the file reads them: [geom], [postStep],
    [FFTM], [Time], and [Solver], which only stores the closure
    [torqueFn].  [Table] is seen through the events [EvArm] and
    [EvTouch]; the quantities are the definitions further down. *)
Record state : Type := {
  (* user inputs *)
  Aex : Go.func float;
  Msat : Go.func float;
  Alpha : Go.func float;
  B_ext : Go.func (Go.arr3 float);
  DMI : Go.func float;
  Ku1 : ScalarParam;
  ku1_red : ScalarParam;
  AnisU : VectorParam;
  Xi : Go.func float;
  SpinPol : Go.func float;
  J : Go.func (Go.arr3 float);
  ExchangeMask : Slice;
  EnableDemag : bool;
  (* accessible quantities *)
  M_buffer : Slice;
  (* hidden quantities *)
  globalmesh : data.Mesh;
  torquebuffer : Slice;
  regions : Bytes;
  extFields : list extField;
  itime : Z;
  demag_ : DemagConvolution;
  (* lazy setmesh *)
  gridsize : option (Go.arr3 Z);
  cellsize : option (Go.arr3 float);
  (* the registry and what has happened so far *)
  Quants : gset string;
  trace : list event
}.

(** Modelled from the spec: [Const] and [ConstVector] are not in this
    file.  The spec names what they build as the defaults "exchange 0,
    anisotropy 0, external field 0, DMI 0, current 0": the closure that
    returns the given value. *)
Definition Const (v : float) : Go.func float := fun _ => v.
Definition ConstVector (x y z : float) : Go.func (Go.arr3 float) :=
  fun _ => Go.Arr3 x y z.

(** The variables as the package initialises them. *)
Definition init_state : state :=
  {| Aex := Const 0; Msat := Const 0; Alpha := Const 0;
     B_ext := ConstVector 0 0 0; DMI := Const 0;
     Ku1 := {| sp_name := ""; sp_unit := ""; sp_table := []; post_update := None |};
     ku1_red := {| sp_name := ""; sp_unit := ""; sp_table := []; post_update := None |};
     AnisU := {| vp_name := ""; vp_unit := ""; vp_table := [] |};
     Xi := Const 0; SpinPol := Const 1; J := ConstVector 0 0 0;
     ExchangeMask := nil_Slice; EnableDemag := true;
     M_buffer := nil_Slice;
     globalmesh := data.NewMesh 0 0 0 0 0 0;
     torquebuffer := nil_Slice; regions := nil_Bytes; extFields := [];
     itime := 0; demag_ := nil_Demag;
     gridsize := None; cellsize := None;
     Quants := ∅; trace := [] |}.

(** Assignments to single variables. *)
Definition set_Msat (v : Go.func float) (s : state) : state :=
  {| Aex := Aex s; Msat := v; Alpha := Alpha s; B_ext := B_ext s; DMI := DMI s;
     Ku1 := Ku1 s; ku1_red := ku1_red s; AnisU := AnisU s; Xi := Xi s;
     SpinPol := SpinPol s; J := J s; ExchangeMask := ExchangeMask s;
     EnableDemag := EnableDemag s; M_buffer := M_buffer s;
     globalmesh := globalmesh s; torquebuffer := torquebuffer s;
     regions := regions s; extFields := extFields s; itime := itime s;
     demag_ := demag_ s; gridsize := gridsize s; cellsize := cellsize s;
     Quants := Quants s; trace := trace s |}.
Definition set_B_ext (v : Go.func (Go.arr3 float)) (s : state) : state :=
  {| Aex := Aex s; Msat := Msat s; Alpha := Alpha s; B_ext := v; DMI := DMI s;
     Ku1 := Ku1 s; ku1_red := ku1_red s; AnisU := AnisU s; Xi := Xi s;
     SpinPol := SpinPol s; J := J s; ExchangeMask := ExchangeMask s;
     EnableDemag := EnableDemag s; M_buffer := M_buffer s;
     globalmesh := globalmesh s; torquebuffer := torquebuffer s;
     regions := regions s; extFields := extFields s; itime := itime s;
     demag_ := demag_ s; gridsize := gridsize s; cellsize := cellsize s;
     Quants := Quants s; trace := trace s |}.
Definition set_DMI (v : Go.func float) (s : state) : state :=
  {| Aex := Aex s; Msat := Msat s; Alpha := Alpha s; B_ext := B_ext s; DMI := v;
     Ku1 := Ku1 s; ku1_red := ku1_red s; AnisU := AnisU s; Xi := Xi s;
     SpinPol := SpinPol s; J := J s; ExchangeMask := ExchangeMask s;
     EnableDemag := EnableDemag s; M_buffer := M_buffer s;
     globalmesh := globalmesh s; torquebuffer := torquebuffer s;
     regions := regions s; extFields := extFields s; itime := itime s;
     demag_ := demag_ s; gridsize := gridsize s; cellsize := cellsize s;
     Quants := Quants s; trace := trace s |}.
Definition set_J (v : Go.func (Go.arr3 float)) (s : state) : state :=
  {| Aex := Aex s; Msat := Msat s; Alpha := Alpha s; B_ext := B_ext s; DMI := DMI s;
     Ku1 := Ku1 s; ku1_red := ku1_red s; AnisU := AnisU s; Xi := Xi s;
     SpinPol := SpinPol s; J := v; ExchangeMask := ExchangeMask s;
     EnableDemag := EnableDemag s; M_buffer := M_buffer s;
     globalmesh := globalmesh s; torquebuffer := torquebuffer s;
     regions := regions s; extFields := extFields s; itime := itime s;
     demag_ := demag_ s; gridsize := gridsize s; cellsize := cellsize s;
     Quants := Quants s; trace := trace s |}.
Definition set_EnableDemag (v : bool) (s : state) : state :=
  {| Aex := Aex s; Msat := Msat s; Alpha := Alpha s; B_ext := B_ext s; DMI := DMI s;
     Ku1 := Ku1 s; ku1_red := ku1_red s; AnisU := AnisU s; Xi := Xi s;
     SpinPol := SpinPol s; J := J s; ExchangeMask := ExchangeMask s;
     EnableDemag := v; M_buffer := M_buffer s; globalmesh := globalmesh s;
     torquebuffer := torquebuffer s; regions := regions s; extFields := extFields s;
     itime := itime s; demag_ := demag_ s; gridsize := gridsize s;
     cellsize := cellsize s; Quants := Quants s; trace := trace s |}.
Definition set_Ku1 (v : ScalarParam) (s : state) : state :=
  {| Aex := Aex s; Msat := Msat s; Alpha := Alpha s; B_ext := B_ext s; DMI := DMI s;
     Ku1 := v; ku1_red := ku1_red s; AnisU := AnisU s; Xi := Xi s;
     SpinPol := SpinPol s; J := J s; ExchangeMask := ExchangeMask s;
     EnableDemag := EnableDemag s; M_buffer := M_buffer s;
     globalmesh := globalmesh s; torquebuffer := torquebuffer s;
     regions := regions s; extFields := extFields s; itime := itime s;
     demag_ := demag_ s; gridsize := gridsize s; cellsize := cellsize s;
     Quants := Quants s; trace := trace s |}.
Definition set_ku1_red (v : ScalarParam) (s : state) : state :=
  {| Aex := Aex s; Msat := Msat s; Alpha := Alpha s; B_ext := B_ext s; DMI := DMI s;
     Ku1 := Ku1 s; ku1_red := v; AnisU := AnisU s; Xi := Xi s; SpinPol := SpinPol s;
     J := J s; ExchangeMask := ExchangeMask s; EnableDemag := EnableDemag s;
     M_buffer := M_buffer s; globalmesh := globalmesh s;
     torquebuffer := torquebuffer s; regions := regions s; extFields := extFields s;
     itime := itime s; demag_ := demag_ s; gridsize := gridsize s;
     cellsize := cellsize s; Quants := Quants s; trace := trace s |}.
Definition set_AnisU (v : VectorParam) (s : state) : state :=
  {| Aex := Aex s; Msat := Msat s; Alpha := Alpha s; B_ext := B_ext s; DMI := DMI s;
     Ku1 := Ku1 s; ku1_red := ku1_red s; AnisU := v; Xi := Xi s;
     SpinPol := SpinPol s; J := J s; ExchangeMask := ExchangeMask s;
     EnableDemag := EnableDemag s; M_buffer := M_buffer s;
     globalmesh := globalmesh s; torquebuffer := torquebuffer s;
     regions := regions s; extFields := extFields s; itime := itime s;
     demag_ := demag_ s; gridsize := gridsize s; cellsize := cellsize s;
     Quants := Quants s; trace := trace s |}.
Definition set_ExchangeMask (v : Slice) (s : state) : state :=
  {| Aex := Aex s; Msat := Msat s; Alpha := Alpha s; B_ext := B_ext s; DMI := DMI s;
     Ku1 := Ku1 s; ku1_red := ku1_red s; AnisU := AnisU s; Xi := Xi s;
     SpinPol := SpinPol s; J := J s; ExchangeMask := v; EnableDemag := EnableDemag s;
     M_buffer := M_buffer s; globalmesh := globalmesh s;
     torquebuffer := torquebuffer s; regions := regions s; extFields := extFields s;
     itime := itime s; demag_ := demag_ s; gridsize := gridsize s;
     cellsize := cellsize s; Quants := Quants s; trace := trace s |}.
Definition set_M_buffer (v : Slice) (s : state) : state :=
  {| Aex := Aex s; Msat := Msat s; Alpha := Alpha s; B_ext := B_ext s; DMI := DMI s;
     Ku1 := Ku1 s; ku1_red := ku1_red s; AnisU := AnisU s; Xi := Xi s;
     SpinPol := SpinPol s; J := J s; ExchangeMask := ExchangeMask s;
     EnableDemag := EnableDemag s; M_buffer := v; globalmesh := globalmesh s;
     torquebuffer := torquebuffer s; regions := regions s; extFields := extFields s;
     itime := itime s; demag_ := demag_ s; gridsize := gridsize s;
     cellsize := cellsize s; Quants := Quants s; trace := trace s |}.
Definition set_globalmesh (v : data.Mesh) (s : state) : state :=
  {| Aex := Aex s; Msat := Msat s; Alpha := Alpha s; B_ext := B_ext s; DMI := DMI s;
     Ku1 := Ku1 s; ku1_red := ku1_red s; AnisU := AnisU s; Xi := Xi s;
     SpinPol := SpinPol s; J := J s; ExchangeMask := ExchangeMask s;
     EnableDemag := EnableDemag s; M_buffer := M_buffer s; globalmesh := v;
     torquebuffer := torquebuffer s; regions := regions s; extFields := extFields s;
     itime := itime s; demag_ := demag_ s; gridsize := gridsize s;
     cellsize := cellsize s; Quants := Quants s; trace := trace s |}.
Definition set_torquebuffer (v : Slice) (s : state) : state :=
  {| Aex := Aex s; Msat := Msat s; Alpha := Alpha s; B_ext := B_ext s; DMI := DMI s;
     Ku1 := Ku1 s; ku1_red := ku1_red s; AnisU := AnisU s; Xi := Xi s;
     SpinPol := SpinPol s; J := J s; ExchangeMask := ExchangeMask s;
     EnableDemag := EnableDemag s; M_buffer := M_buffer s;
     globalmesh := globalmesh s; torquebuffer := v; regions := regions s;
     extFields := extFields s; itime := itime s; demag_ := demag_ s;
     gridsize := gridsize s; cellsize := cellsize s; Quants := Quants s;
     trace := trace s |}.
Definition set_regions (v : Bytes) (s : state) : state :=
  {| Aex := Aex s; Msat := Msat s; Alpha := Alpha s; B_ext := B_ext s; DMI := DMI s;
     Ku1 := Ku1 s; ku1_red := ku1_red s; AnisU := AnisU s; Xi := Xi s;
     SpinPol := SpinPol s; J := J s; ExchangeMask := ExchangeMask s;
     EnableDemag := EnableDemag s; M_buffer := M_buffer s;
     globalmesh := globalmesh s; torquebuffer := torquebuffer s; regions := v;
     extFields := extFields s; itime := itime s; demag_ := demag_ s;
     gridsize := gridsize s; cellsize := cellsize s; Quants := Quants s;
     trace := trace s |}.
Definition set_extFields (v : list extField) (s : state) : state :=
  {| Aex := Aex s; Msat := Msat s; Alpha := Alpha s; B_ext := B_ext s; DMI := DMI s;
     Ku1 := Ku1 s; ku1_red := ku1_red s; AnisU := AnisU s; Xi := Xi s;
     SpinPol := SpinPol s; J := J s; ExchangeMask := ExchangeMask s;
     EnableDemag := EnableDemag s; M_buffer := M_buffer s;
     globalmesh := globalmesh s; torquebuffer := torquebuffer s;
     regions := regions s; extFields := v; itime := itime s; demag_ := demag_ s;
     gridsize := gridsize s; cellsize := cellsize s; Quants := Quants s;
     trace := trace s |}.
Definition set_itime (v : Z) (s : state) : state :=
  {| Aex := Aex s; Msat := Msat s; Alpha := Alpha s; B_ext := B_ext s; DMI := DMI s;
     Ku1 := Ku1 s; ku1_red := ku1_red s; AnisU := AnisU s; Xi := Xi s;
     SpinPol := SpinPol s; J := J s; ExchangeMask := ExchangeMask s;
     EnableDemag := EnableDemag s; M_buffer := M_buffer s;
     globalmesh := globalmesh s; torquebuffer := torquebuffer s;
     regions := regions s; extFields := extFields s; itime := v; demag_ := demag_ s;
     gridsize := gridsize s; cellsize := cellsize s; Quants := Quants s;
     trace := trace s |}.
Definition set_demag_ (v : DemagConvolution) (s : state) : state :=
  {| Aex := Aex s; Msat := Msat s; Alpha := Alpha s; B_ext := B_ext s; DMI := DMI s;
     Ku1 := Ku1 s; ku1_red := ku1_red s; AnisU := AnisU s; Xi := Xi s;
     SpinPol := SpinPol s; J := J s; ExchangeMask := ExchangeMask s;
     EnableDemag := EnableDemag s; M_buffer := M_buffer s;
     globalmesh := globalmesh s; torquebuffer := torquebuffer s;
     regions := regions s; extFields := extFields s; itime := itime s; demag_ := v;
     gridsize := gridsize s; cellsize := cellsize s; Quants := Quants s;
     trace := trace s |}.
Definition set_gridsize (v : option (Go.arr3 Z)) (s : state) : state :=
  {| Aex := Aex s; Msat := Msat s; Alpha := Alpha s; B_ext := B_ext s; DMI := DMI s;
     Ku1 := Ku1 s; ku1_red := ku1_red s; AnisU := AnisU s; Xi := Xi s;
     SpinPol := SpinPol s; J := J s; ExchangeMask := ExchangeMask s;
     EnableDemag := EnableDemag s; M_buffer := M_buffer s;
     globalmesh := globalmesh s; torquebuffer := torquebuffer s;
     regions := regions s; extFields := extFields s; itime := itime s;
     demag_ := demag_ s; gridsize := v; cellsize := cellsize s; Quants := Quants s;
     trace := trace s |}.
Definition set_cellsize (v : option (Go.arr3 float)) (s : state) : state :=
  {| Aex := Aex s; Msat := Msat s; Alpha := Alpha s; B_ext := B_ext s; DMI := DMI s;
     Ku1 := Ku1 s; ku1_red := ku1_red s; AnisU := AnisU s; Xi := Xi s;
     SpinPol := SpinPol s; J := J s; ExchangeMask := ExchangeMask s;
     EnableDemag := EnableDemag s; M_buffer := M_buffer s;
     globalmesh := globalmesh s; torquebuffer := torquebuffer s;
     regions := regions s; extFields := extFields s; itime := itime s;
     demag_ := demag_ s; gridsize := gridsize s; cellsize := v; Quants := Quants s;
     trace := trace s |}.
Definition set_Quants (v : gset string) (s : state) : state :=
  {| Aex := Aex s; Msat := Msat s; Alpha := Alpha s; B_ext := B_ext s; DMI := DMI s;
     Ku1 := Ku1 s; ku1_red := ku1_red s; AnisU := AnisU s; Xi := Xi s;
     SpinPol := SpinPol s; J := J s; ExchangeMask := ExchangeMask s;
     EnableDemag := EnableDemag s; M_buffer := M_buffer s;
     globalmesh := globalmesh s; torquebuffer := torquebuffer s;
     regions := regions s; extFields := extFields s; itime := itime s;
     demag_ := demag_ s; gridsize := gridsize s; cellsize := cellsize s; Quants := v;
     trace := trace s |}.
Definition set_trace (v : list event) (s : state) : state :=
  {| Aex := Aex s; Msat := Msat s; Alpha := Alpha s; B_ext := B_ext s; DMI := DMI s;
     Ku1 := Ku1 s; ku1_red := ku1_red s; AnisU := AnisU s; Xi := Xi s;
     SpinPol := SpinPol s; J := J s; ExchangeMask := ExchangeMask s;
     EnableDemag := EnableDemag s; M_buffer := M_buffer s;
     globalmesh := globalmesh s; torquebuffer := torquebuffer s;
     regions := regions s; extFields := extFields s; itime := itime s;
     demag_ := demag_ s; gridsize := gridsize s; cellsize := cellsize s;
     Quants := Quants s; trace := v |}.

(** ** Computations

    [log.Fatal] prints its message and exits the process: nothing after
    it runs.  A computation therefore ends with a value and a state, or
    with the message and the state at the exit. *)
Inductive outcome (A : Type) : Type :=
| Ok (a : A) (s : state)
| Fatal (msg : string) (s : state).
Arguments Ok {A} _ _.
Arguments Fatal {A} _ _.

Definition Run (A : Type) : Type := state -> outcome A.

Definition ret {A : Type} (a : A) : Run A := fun s => Ok a s.

Definition bind {A B : Type} (c : Run A) (k : A -> Run B) : Run B :=
  fun s => match c s with
           | Ok a s' => k a s'
           | Fatal msg s' => Fatal msg s'
           end.

Definition gets {A : Type} (f : state -> A) : Run A := fun s => Ok (f s) s.
Definition modify (f : state -> state) : Run unit := fun s => Ok tt (f s).
Definition call {A : Type} (f : state -> Go.func A) : Run A :=
  fun s => Ok (f s tt) s.
(** The state with [evs] appended to its trace. *)
Definition log (evs : list event) (s : state) : state :=
  set_trace (trace s ++ evs) s.
Definition emit (e : event) : Run unit := modify (log [e]).
Definition log_Fatal {A : Type} (msg : string) : Run A := fun s => Fatal msg s.
Definition log_Println (msg : string) : Run unit := emit (EvPrintln msg).

(** A kernel launch: the event, then the new contents of the buffer. *)
Definition launch (k : kernel) (result : Slice) : Run Slice :=
  bind (emit (EvKernel k)) (fun _ => ret result).

(** Where a computation ended, and with what. *)
Definition final {A : Type} (o : outcome A) : state :=
  match o with Ok _ s => s | Fatal _ s => s end.
Definition value {A : Type} (o : outcome A) : option A :=
  match o with Ok a _ => Some a | Fatal _ _ => None end.
Definition fatal {A : Type} (o : outcome A) : option string :=
  match o with Ok _ _ => None | Fatal msg _ => Some msg end.

End Engine.

Arguments Ok {_ A} _ _.
Arguments Fatal {_ A} _ _.

Declare Scope run_scope.
Delimit Scope run_scope with run.
Notation "x <- c ;; k" := (bind c (fun x => k))
  (at level 100, c at next level, right associativity) : run_scope.
Notation "c ;;; k" := (bind c (fun _ => k))
  (at level 100, right associativity) : run_scope.

Section Pipeline.

Context `{!Extern}.
Local Open Scope run_scope.

(** ** The mesh *)

(** check if mesh is set *)
Definition checkMesh : Run unit :=
  m <- gets globalmesh ;;
  if Go.int3_eqb (data.Size m) (Go.Arr3 0 0 0)
  then log_Fatal "need to set mesh first"
  else ret tt.

Definition Mesh : Run data.Mesh := checkMesh ;;; gets globalmesh.

(** Add an additional space-dependent field to B_ext. *)
Definition AddExtField (mask : Slice) (multiplier : Go.func float) : Run unit :=
  let m := cuda_GPUCopy mask in
  modify (fun s => set_extFields (extFields s ++ [ {| mask := m; mul := multiplier |} ]) s).

(** ** Reading and writing a parameter *)

(** The two parameters the file reads and writes by region. *)
Inductive param_var : Set := Var_Ku1 | Var_ku1_red.

Definition param_get (x : param_var) (s : state) : ScalarParam :=
  match x with Var_Ku1 => Ku1 s | Var_ku1_red => ku1_red s end.

Definition param_set (x : param_var) (p : ScalarParam) (s : state) : state :=
  match x with Var_Ku1 => set_Ku1 p s | Var_ku1_red => set_ku1_red p s end.

Definition with_table (t : list float) (p : ScalarParam) : ScalarParam :=
  {| sp_name := sp_name p; sp_unit := sp_unit p; sp_table := t;
     post_update := post_update p |}.

Definition with_post_update (h : option hook) (p : ScalarParam) : ScalarParam :=
  {| sp_name := sp_name p; sp_unit := sp_unit p; sp_table := sp_table p;
     post_update := h |}.

(** Modelled from the spec: [ScalarParam.GetRegion] is not in this file.
    "get(region) -> value"; an index outside the table stops the process,
    as indexing does in Go. *)
Definition GetRegion (x : param_var) (region : Z) : Run float :=
  p <- gets (param_get x) ;;
  if 0 <=? region then
    match sp_table p !! Z.to_nat region with
    | Some v => ret v
    | None => log_Fatal "region index out of range"
    end
  else log_Fatal "region index out of range".

(** Modelled from the spec: the write of [ScalarParam.SetRegion] without
    the callback.  "Writing a region index outside the valid range is a
    configuration error reported to the caller, not silently clamped". *)
Definition setRegion (x : param_var) (region : Z) (v : float) : Run unit :=
  p <- gets (param_get x) ;;
  if (0 <=? region) && (Z.to_nat region <? length (sp_table p))%nat then
    modify (param_set x (with_table (<[Z.to_nat region := v]> (sp_table p)) p))
  else log_Fatal "region index out of range".

(** The body of the closure assigned to [Ku1.post_update].  Its call
    [ku1_red.SetRegion] is the write alone: nothing assigns
    [ku1_red.post_update]. *)
Definition run_post_update (h : hook) (region : Z) : Run unit :=
  match h with
  | Ku1_hook =>
      k <- GetRegion Var_Ku1 region ;;
      msat <- call Msat ;;
      setRegion Var_ku1_red region (k / msat)%float
  end.

(** Modelled from the spec: [ScalarParam.SetRegion] is not in this file.
    "set(region, value) -> void (triggers post_update if registered)". *)
Definition SetRegion (x : param_var) (region : Z) (v : float) : Run unit :=
  setRegion x region v ;;;
  p <- gets (param_get x) ;;
  match post_update p with
  | Some h => run_post_update h region
  | None => ret tt
  end.

(** ** Setter and adder quantities *)

(** Modelled from the spec: the type [setterQuant] is not in this file.
    "Quantity: (name, component-count, mesh, unit, compute-fn)"; the mesh
    is left out, the quantities keep it for their output only. *)
Record setterQuant : Type := {
  sq_nComp : nat; sq_name : string; sq_unit : string;
  setFn : Slice -> bool -> Run Slice
}.

(** Modelled from the spec: the type [adderQuant] is not in this file; as
    [setterQuant], with a compute function that takes no [cansave]. *)
Record adderQuant : Type := {
  aq_nComp : nat; aq_name : string; aq_unit : string;
  addFn : Slice -> Run Slice
}.

(** Modelled from the spec: the constructor [setter] is not in this file. *)
Definition setter (nComp : nat) (name unit : string)
    (fn : Slice -> bool -> Run Slice) : setterQuant :=
  {| sq_nComp := nComp; sq_name := name; sq_unit := unit; setFn := fn |}.

(** Modelled from the spec: the constructor [adder] is not in this file. *)
Definition adder (nComp : nat) (name unit : string)
    (fn : Slice -> Run Slice) : adderQuant :=
  {| aq_nComp := nComp; aq_name := name; aq_unit := unit; addFn := fn |}.

(** Modelled from the spec: the method [set] is not in this file.
    "Setter: set(dst, cansave) -> void, fully overwrites dst ... computing
    a quantity may, if cansave is true, register its most recent value
    with the Sampling Table". *)
Definition set (q : setterQuant) (dst : Slice) (cansave : bool) : Run Slice :=
  dst' <- setFn q dst cansave ;;
  (if cansave then emit (EvRegister (sq_name q)) else ret tt) ;;;
  ret dst'.

(** Modelled from the spec: the method [addTo] is not in this file.
    "Adder: addTo(dst, cansave) -> void, accumulates into existing
    contents of dst", with the same registration when [cansave] is true. *)
Definition addTo (q : adderQuant) (dst : Slice) (cansave : bool) : Run Slice :=
  dst' <- addFn q dst ;;
  (if cansave then emit (EvRegister (aq_name q)) else ret tt) ;;;
  ret dst'.

(** ** The table and the quantities that save themselves *)

(** Modelled from the spec: [Table.arm] is not in this file.  "Arms the
    Sampling Table": the event of the call. *)
Definition Table_arm (cansave : bool) : Run unit := emit (EvArm cansave).

(** Modelled from the spec: [Table.touch] is not in this file.  "Tells the
    Sampling Table to sample": the event of the call. *)
Definition Table_touch (cansave : bool) : Run unit := emit (EvTouch cansave).

(** Modelled from the spec: [notifySave] is not in this file.  "Notifies
    every quantity that participates in logging whether this tick is
    save-worthy": the event of the call, with the variable notified. *)
Definition notifySave (q : string) (cansave : bool) : Run unit :=
  emit (EvNotifySave q cansave).

(** ** The field assembly *)

Definition sanitycheck : Run unit :=
  msat <- call Msat ;;
  if Go.float64_eqb msat 0 then log_Fatal "Msat should be nonzero" else ret tt.

(** demag field *)
Definition B_demag : setterQuant :=
  setter 3 "B_demag" "T" (fun b cansave =>
    enable <- gets EnableDemag ;;
    if enable then
      sanitycheck ;;;
      d <- gets demag_ ;;
      m <- gets M_buffer ;;
      msat <- call Msat ;;
      launch KExec (cuda_Exec d b m None (Mu0 * msat)%float)
    else
      launch KZero (cuda_Zero b)).

(** exchange field *)
Definition B_exch : adderQuant :=
  adder 3 "B_exch" "T" (fun dst =>
    sanitycheck ;;;
    m <- gets M_buffer ;;
    em <- gets ExchangeMask ;;
    aex <- call Aex ;;
    msat <- call Msat ;;
    launch KAddExchange (cuda_AddExchange dst m em aex msat)).

(** Dzyaloshinskii-Moriya field *)
Definition B_dmi : adderQuant :=
  adder 3 "B_dmi" "T" (fun dst =>
    d <- call DMI ;;
    if negb (Go.float64_eqb d 0) then
      m <- gets M_buffer ;;
      msat <- call Msat ;;
      launch KAddDMI (cuda_AddDMI dst m d msat)
    else ret dst).

(** uniaxial anisotropy *)
Definition B_uni : adderQuant :=
  adder 3 "B_uni" "T" (fun dst =>
    m <- gets M_buffer ;;
    k <- gets ku1_red ;;
    u <- gets AnisU ;;
    r <- gets regions ;;
    launch KAddUniaxialAnisotropy
      (cuda_AddUniaxialAnisotropy dst m (sp_table k) (vp_table u) r)).

(** The loop over [extFields] of the external field. *)
Fixpoint add_extFields (fs : list extField) (dst : Slice) : Run Slice :=
  match fs with
  | [] => ret dst
  | f :: fs' =>
      dst' <- launch KMadd2
                (cuda_Madd2 dst dst (mask f) (to_float32 1) (to_float32 (mul f tt))) ;;
      add_extFields fs' dst'
  end.

(** external field *)
Definition b_ext : adderQuant :=
  adder 3 "B_ext" "T" (fun dst =>
    bext <- call B_ext ;;
    dst' <- launch KAddConst
              (cuda_AddConst dst (to_float32 bext.[Go.I2]) (to_float32 bext.[Go.I1])
                 (to_float32 bext.[Go.I0])) ;;
    fs <- gets extFields ;;
    add_extFields fs dst').

(** effective field *)
Definition B_eff : setterQuant :=
  setter 3 "B_eff" "T" (fun dst cansave =>
    dst <- set B_demag dst cansave ;;
    dst <- addTo B_exch dst cansave ;;
    dst <- addTo B_dmi dst cansave ;;
    dst <- addTo B_uni dst cansave ;;
    addTo b_ext dst cansave).

(** Landau-Lifshitz torque *)
Definition LLTorque : setterQuant :=
  setter 3 "lltorque" "T" (fun b cansave =>
    b <- set B_eff b cansave ;;
    m <- gets M_buffer ;;
    alpha <- call Alpha ;;
    launch KLLTorque (cuda_LLTorque b m b (to_float32 alpha))).

(** spin-transfer torque *)
Definition STTorque : adderQuant :=
  adder 3 "sttorque" "T" (fun dst =>
    j <- call J ;;
    if negb (Go.float3_eqb j (Go.Arr3 0 0 0)%float) then
      p <- call SpinPol ;;
      let jx := (j.[Go.I2] * p)%float in
      let jy := (j.[Go.I1] * p)%float in
      let jz := (j.[Go.I0] * p)%float in
      m <- gets M_buffer ;;
      msat <- call Msat ;;
      alpha <- call Alpha ;;
      xi <- call Xi ;;
      launch KAddZhangLiTorque
        (cuda_AddZhangLiTorque dst m (Go.Arr3 jx jy jz) msat None alpha xi)
    else ret dst).

Definition Torque : setterQuant :=
  setter 3 "torque" "T" (fun b cansave =>
    b <- set LLTorque b cansave ;;
    addTo STTorque b cansave).

(** The right-hand side handed to the solver.  The kernels write into
    the buffer [torquebuffer] points to, so the variable holds the new
    contents afterwards. *)
Definition torqueFn (cansave : bool) : Run Slice :=
  modify (fun s => set_itime (Go.wrap (itime s + 1)) s) ;;;
  Table_arm cansave ;;;
  notifySave "M" cansave ;;;
  notifySave "FFTM" cansave ;;;
  notifySave "ExchangeMask" cansave ;;;
  buf <- gets torquebuffer ;;
  buf' <- set Torque buf cansave ;;
  modify (set_torquebuffer buf') ;;;
  Table_touch cansave ;;;
  gets torquebuffer.

(** ** Initialisation *)

Definition register (name : string) : Run unit :=
  modify (fun s => set_Quants ({[ name ]} ∪ Quants s) s).

Definition initialize : Run unit :=
  m <- Mesh ;; modify (set_torquebuffer (cuda_NewSlice 3 m)) ;;;
  (* magnetization *)
  modify (fun s => set_M_buffer (M_init (globalmesh s)) s) ;;; register "m" ;;;
  (* regions *)
  modify (fun s => set_regions (regions_init (globalmesh s)) s) ;;; register "regions" ;;;
  register "mFFT" ;;;
  (* demag field *)
  m <- Mesh ;; modify (set_demag_ (cuda_NewDemag m)) ;;;
  Mesh ;;; register "B_demag" ;;;
  (* exchange field *)
  Mesh ;;; register "B_exch" ;;;
  m <- Mesh ;; modify (set_ExchangeMask (staggeredMask m "exchangemask" "")) ;;;
  register "exchangemask" ;;;
  (* Dzyaloshinskii-Moriya field *)
  Mesh ;;; register "B_dmi" ;;;
  modify (set_AnisU (vectorParam "anisU" "")) ;;;
  modify (set_Ku1 (scalarParam "Ku1" "J/m3")) ;;;
  modify (set_ku1_red (scalarParam "ku1_red" "T")) ;;;
  modify (fun s => set_Ku1 (with_post_update (Some Ku1_hook) (Ku1 s)) s) ;;;
  (* uniaxial anisotropy *)
  Mesh ;;; register "B_uni" ;;;
  (* external field *)
  Mesh ;;;
  (* effective field *)
  Mesh ;;; register "B_eff" ;;;
  (* Landau-Lifshitz torque *)
  Mesh ;;; register "lltorque" ;;;
  (* spin-transfer torque *)
  Mesh ;;; register "sttorque" ;;;
  Mesh ;;; register "torque".

(** ** The accessors in user order *)

(** Returns the mesh cell size in meters. *)
Definition CellSize : Run (Go.arr3 float) :=
  m <- Mesh ;;
  let c := data.CellSize m in
  ret (Go.Arr3 c.[Axis.Z] c.[Axis.Y] c.[Axis.X]). (* swaps XYZ *)

Definition WorldSize : Run (Go.arr3 float) :=
  m <- Mesh ;;
  let w := data.WorldSize m in
  ret (Go.Arr3 w.[Axis.Z] w.[Axis.Y] w.[Axis.X]). (* swaps XYZ *)

Definition GridSize : Run (Go.arr3 Z) :=
  m <- Mesh ;;
  let n := data.Size m in
  ret (Go.Arr3 n.[Axis.Z] n.[Axis.Y] n.[Axis.X]). (* swaps XYZ *)

Definition Nx : Run Z := g <- GridSize ;; ret g.[Axis.X].
Definition Ny : Run Z := g <- GridSize ;; ret g.[Axis.Y].
Definition Nz : Run Z := g <- GridSize ;; ret g.[Axis.Z].

(** Set the simulation mesh to Nx x Ny x Nz cells of given size.
    Can be set only once at the beginning of the simulation. *)
Definition SetMesh (Nx Ny Nz : Z) (cellSizeX cellSizeY cellSizeZ : float) : Run unit :=
  (if Nx <=? 1
   then log_Fatal ("mesh size X should be > 1, have: " +:+ pretty Nx)
   else ret tt) ;;;
  modify (set_globalmesh (data.NewMesh Nz Ny Nx cellSizeZ cellSizeY cellSizeX)) ;;;
  m <- Mesh ;;
  log_Println ("set mesh: " +:+ UserString m) ;;;
  initialize.

(** for lazy setmesh: set gridsize and cellsize in separate calls *)
Definition setGridSize (Nx Ny Nz : Z) : Run unit :=
  modify (set_gridsize (Some (Go.Arr3 Nx Ny Nz))) ;;;
  c <- gets cellsize ;;
  match c with
  | Some cs => SetMesh Nx Ny Nz cs.[Go.I0] cs.[Go.I1] cs.[Go.I2]
  | None => ret tt
  end.

Definition setCellSize (cx cy cz : float) : Run unit :=
  modify (set_cellsize (Some (Go.Arr3 cx cy cz))) ;;;
  g <- gets gridsize ;;
  match g with
  | Some gs => SetMesh gs.[Go.I0] gs.[Go.I1] gs.[Go.I2] cx cy cz
  | None => ret tt
  end.

End Pipeline.

(** ** What the pipeline computes, as functions of the variables

    The contents each quantity leaves in its destination and the events it
    adds to the trace, written without the monad.  The theorems below
    prove that the computations above produce exactly these. *)

Section Values.

Context `{!Extern}.

(** The variables without the trace. *)
Definition erase (s : state) : state := set_trace [] s.

Definition reg (cansave : bool) (name : string) : list event :=
  if cansave then [EvRegister name] else [].

Definition Msat_is_zero (s : state) : bool := Go.float64_eqb (Msat s tt) 0.
Definition DMI_is_zero (s : state) : bool := Go.float64_eqb (DMI s tt) 0.
Definition J_is_zero (s : state) : bool :=
  Go.float3_eqb (J s tt) (Go.Arr3 0 0 0)%float.

Definition demag_field (s : state) (dst : Slice) : Slice :=
  if EnableDemag s
  then cuda_Exec (demag_ s) dst (M_buffer s) None (Mu0 * Msat s tt)%float
  else cuda_Zero dst.

Definition plus_exchange (s : state) (dst : Slice) : Slice :=
  cuda_AddExchange dst (M_buffer s) (ExchangeMask s) (Aex s tt) (Msat s tt).

Definition plus_dmi (s : state) (dst : Slice) : Slice :=
  if DMI_is_zero s then dst
  else cuda_AddDMI dst (M_buffer s) (DMI s tt) (Msat s tt).

Definition plus_anisotropy (s : state) (dst : Slice) : Slice :=
  cuda_AddUniaxialAnisotropy dst (M_buffer s) (sp_table (ku1_red s))
    (vp_table (AnisU s)) (regions s).

Definition plus_mask (dst : Slice) (f : extField) : Slice :=
  cuda_Madd2 dst dst (mask f) (to_float32 1) (to_float32 (mul f tt)).

Definition plus_external (s : state) (dst : Slice) : Slice :=
  fold_left plus_mask (extFields s)
    (cuda_AddConst dst (to_float32 (Go.at2 (B_ext s tt)))
       (to_float32 (Go.at1 (B_ext s tt))) (to_float32 (Go.at0 (B_ext s tt)))).

Definition effective_field (s : state) (dst : Slice) : Slice :=
  plus_external s (plus_anisotropy s (plus_dmi s (plus_exchange s (demag_field s dst)))).

Definition ll_torque (s : state) (dst : Slice) : Slice :=
  let b := effective_field s dst in
  cuda_LLTorque b (M_buffer s) b (to_float32 (Alpha s tt)).

Definition plus_sttorque (s : state) (dst : Slice) : Slice :=
  if J_is_zero s then dst
  else
    let j := J s tt in
    let p := SpinPol s tt in
    cuda_AddZhangLiTorque dst (M_buffer s)
      (Go.Arr3 (Go.at2 j * p) (Go.at1 j * p) (Go.at0 j * p))%float
      (Msat s tt) None (Alpha s tt) (Xi s tt).

Definition total_torque (s : state) (dst : Slice) : Slice :=
  plus_sttorque s (ll_torque s dst).

Definition demag_events (s : state) (c : bool) : list event :=
  EvKernel (if EnableDemag s then KExec else KZero) :: reg c "B_demag".
Definition exchange_events (c : bool) : list event :=
  EvKernel KAddExchange :: reg c "B_exch".
Definition dmi_events (s : state) (c : bool) : list event :=
  (if DMI_is_zero s then [] else [EvKernel KAddDMI]) ++ reg c "B_dmi".
Definition anisotropy_events (c : bool) : list event :=
  EvKernel KAddUniaxialAnisotropy :: reg c "B_uni".
Definition external_events (s : state) (c : bool) : list event :=
  EvKernel KAddConst :: replicate (length (extFields s)) (EvKernel KMadd2)
  ++ reg c "B_ext".
Definition B_eff_events (s : state) (c : bool) : list event :=
  demag_events s c ++ exchange_events c ++ dmi_events s c ++ anisotropy_events c
  ++ external_events s c ++ reg c "B_eff".
Definition LLTorque_events (s : state) (c : bool) : list event :=
  B_eff_events s c ++ EvKernel KLLTorque :: reg c "lltorque".
Definition sttorque_events (s : state) (c : bool) : list event :=
  (if J_is_zero s then [] else [EvKernel KAddZhangLiTorque]) ++ reg c "sttorque".
Definition Torque_events (s : state) (c : bool) : list event :=
  LLTorque_events s c ++ sttorque_events s c ++ reg c "torque".

(** The events of [B_eff.set] up to the fatal exit when [Msat()] is zero:
    with demag enabled the check of [B_demag] stops it at once, otherwise
    the check of [B_exch] does, after [B_demag] has zeroed the buffer. *)
Definition B_eff_events_to_exit (s : state) (c : bool) : list event :=
  if EnableDemag s then [] else demag_events s c.

(** [checkMesh] finds no mesh. *)
Definition mesh_unset (s : state) : bool :=
  Go.int3_eqb (data.Size (globalmesh s)) (Go.Arr3 0 0 0).

(** The variables after [initialize]. *)
Definition initialized (s : state) : state :=
  let m := globalmesh s in
  {| Aex := Aex s; Msat := Msat s; Alpha := Alpha s; B_ext := B_ext s; DMI := DMI s;
     Ku1 := with_post_update (Some Ku1_hook) (scalarParam "Ku1" "J/m3");
     ku1_red := scalarParam "ku1_red" "T";
     AnisU := vectorParam "anisU" "";
     Xi := Xi s; SpinPol := SpinPol s; J := J s;
     ExchangeMask := staggeredMask m "exchangemask" "";
     EnableDemag := EnableDemag s;
     M_buffer := M_init m;
     globalmesh := m;
     torquebuffer := cuda_NewSlice 3 m;
     regions := regions_init m;
     extFields := extFields s; itime := itime s;
     demag_ := cuda_NewDemag m;
     gridsize := gridsize s; cellsize := cellsize s;
     Quants :=
       {[ "torque" ]} ∪ ({[ "sttorque" ]} ∪ ({[ "lltorque" ]} ∪ ({[ "B_eff" ]} ∪
       ({[ "B_uni" ]} ∪ ({[ "B_dmi" ]} ∪ ({[ "exchangemask" ]} ∪ ({[ "B_exch" ]} ∪
       ({[ "B_demag" ]} ∪ ({[ "mFFT" ]} ∪ ({[ "regions" ]} ∪ ({[ "m" ]} ∪ Quants s)))))))))));
     trace := trace s |}.

(** The variables after a call of [SetMesh] that passes its check. *)
Definition after_SetMesh (Nx Ny Nz : Z) (cx cy cz : float) (s : state) : state :=
  let m := data.NewMesh Nz Ny Nx cz cy cx in
  initialized (log [EvPrintln ("set mesh: " +:+ UserString m)] (set_globalmesh m s)).

(** The kernels launched, in order. *)
Definition kernels_of (tr : list event) : list kernel :=
  omap (fun e => match e with EvKernel k => Some k | _ => None end) tr.

(** Events of the field assembly, as opposed to those of the table. *)
Definition is_pipeline_event (e : event) : bool :=
  match e with EvKernel _ | EvRegister _ => true | _ => false end.

(** What the caller of a computation sees. *)
Definition result {A : Type} (o : outcome A) : string + A :=
  match o with Ok a _ => inr a | Fatal msg _ => inl msg end.

(** Two runs that the caller cannot tell apart: the same value or the
    same fatal message, and the same variables afterwards. *)
Definition same_outcome {A : Type} (o1 o2 : outcome A) : Prop :=
  result o1 = result o2 /\ erase (final o1) = erase (final o2).

(** The events with which [torqueFn] opens a tick. *)
Definition arming (c : bool) : list event :=
  [EvArm c; EvNotifySave "M" c; EvNotifySave "FFTM" c; EvNotifySave "ExchangeMask" c].

(** The variables after a tick that returns, and after one that the
    check of [Msat] stops. *)
Definition after_tick (c : bool) (s : state) : state :=
  set_torquebuffer (total_torque s (torquebuffer s))
    (set_itime (Go.wrap (itime s + 1))
       (log (arming c ++ Torque_events s c ++ [EvTouch c]) s)).

Definition after_stopped_tick (c : bool) (s : state) : state :=
  set_itime (Go.wrap (itime s + 1)) (log (arming c ++ B_eff_events_to_exit s c) s).

End Values.

(** ** A free interpretation of the interface

    Every kernel is a constructor: the contents of a buffer are the
    history of the launches that wrote it.  Two buffers that are equal
    here are equal under every interpretation. *)

Module Sym.

Inductive slice : Type :=
| Nil
| Given (n : nat)                               (* a buffer of the caller *)
| New (nComp : nat) (m : data.Mesh)
| MInit (m : data.Mesh)
| Mask (m : data.Mesh) (name unit : string)
| Copy (src : slice)
| Exec (d : option data.Mesh) (b m vol : slice) (bsat : float)
| Zero (b : slice)
| AddExchange (dst m mask : slice) (aex msat : float)
| AddDMI (dst m : slice) (d msat : float)
| AddUniaxialAnisotropy (dst m : slice) (ku1_red : list float)
    (anisU : list (Go.arr3 float)) (regions : option data.Mesh)
| AddConst (dst : slice) (c0 c1 c2 : float)
| Madd2 (dst src1 src2 : slice) (f1 f2 : float)
| LLTorque (torque m B : slice) (alpha : float)
| AddZhangLiTorque (dst m : slice) (j : Go.arr3 float) (msat : float)
    (jmask : slice) (alpha xi : float).

End Sym.

#[export] Instance sym : Extern := {|
  Slice := Sym.slice;
  float32 := float;
  Bytes := option data.Mesh;
  DemagConvolution := option data.Mesh;
  nil_Slice := Sym.Nil;
  nil_Bytes := None;
  nil_Demag := None;
  to_float32 := fun x => x;
  Mu0 := 0x1.515370f99f6cbp-20%float;
  MAXREG := 256;
  UserString := fun _ => "mesh";
  M_init := Sym.MInit;
  regions_init := Some;
  staggeredMask := Sym.Mask;
  cuda_NewSlice := Sym.New;
  cuda_GPUCopy := Sym.Copy;
  cuda_NewDemag := Some;
  cuda_Exec := fun d b m vol bsat => Sym.Exec d b m (default Sym.Nil vol) bsat;
  cuda_Zero := Sym.Zero;
  cuda_AddExchange := Sym.AddExchange;
  cuda_AddDMI := Sym.AddDMI;
  cuda_AddUniaxialAnisotropy := Sym.AddUniaxialAnisotropy;
  cuda_AddConst := Sym.AddConst;
  cuda_Madd2 := Sym.Madd2;
  cuda_LLTorque := Sym.LLTorque;
  cuda_AddZhangLiTorque := fun dst m j msat jmask alpha xi =>
    Sym.AddZhangLiTorque dst m j msat (default Sym.Nil jmask) alpha xi
|}.

(** States of the free interpretation used as concrete inputs: the mesh of
    4 x 4 x 1 cells of 1e-9 m, first with the initial [Msat] of zero, then
    with a saturation magnetization of 8e5 A/m. *)
Definition mesh_set : state := final (SetMesh 4 4 1 1e-9 1e-9 1e-9 init_state).
Definition ready : state := set_Msat (Const 8e5) mesh_set.

(** ** The check of the magnetization

    [DevPtr] and [cuda.MaxVecNorm] belong to the packages data and cuda:
    whether component [i] of a buffer has no device memory, and the
    largest norm of the vectors of a buffer. *)

Section Magnetization.

Context `{!Extern}.
Variable DevPtr_is_nil : Slice -> Z -> bool.
Variable cuda_MaxVecNorm : Slice -> float.
Local Open Scope run_scope.

(** check if m is set *)
Definition checkM : Run unit :=
  checkMesh ;;;
  m <- gets M_buffer ;;
  (if DevPtr_is_nil m 0
   then log_Fatal "need to initialize magnetization first"
   else ret tt) ;;;
  if Go.float64_eqb (cuda_MaxVecNorm m) 0
  then log_Fatal "need to initialize magnetization first"
  else ret tt.

End Magnetization.

(** The keys [initialize] writes into [Quants]. *)
Definition registered : list string :=
  ["m"; "regions"; "mFFT"; "B_demag"; "B_exch"; "exchangemask"; "B_dmi"; "B_uni";
   "B_eff"; "lltorque"; "sttorque"; "torque"].

(** In the free interpretation only the nil buffer has no device memory,
    and every buffer holds a vector of norm 1. *)
Definition sym_DevPtr_is_nil (b : Sym.slice) (i : Z) : bool :=
  match b with Sym.Nil => true | _ => false end.
Definition sym_MaxVecNorm (b : Sym.slice) : float := 1%float.

(** ** A run of evaluations

    The solver calls the torque function once per stage of a step.  A
    run of such calls, one per [cansave] flag of the list, with nothing
    else in between. *)

Section Evaluations.

Context `{!Extern}.
Local Open Scope run_scope.

Fixpoint evaluations (cs : list bool) : Run unit :=
  match cs with
  | [] => ret tt
  | c :: cs' => torqueFn c ;;; evaluations cs'
  end.

(** The events of the table and of the notifications in a trace. *)
Definition table_events (tr : list event) : list event :=
  List.filter (fun e => negb (is_pipeline_event e)) tr.

End Evaluations.

(** * Properties *)

Section Proofs.

Context `{!Extern}.
Local Open Scope run_scope.

Ltac run :=
  unfold set, addTo, setter, adder, sanitycheck, launch, emit, log_Println,
    log_Fatal, call, gets, modify, bind, ret; cbn.

(** Two states spelled out by assignments: equal variable by variable,
    the traces up to bracketing. *)
Ltac same_vars :=
  cbv beta iota delta
    [Aex Msat Alpha B_ext DMI Ku1 ku1_red AnisU Xi SpinPol J ExchangeMask
     EnableDemag M_buffer globalmesh torquebuffer regions extFields itime demag_
     gridsize cellsize Quants trace
     log set_torquebuffer set_itime set_globalmesh set_trace];
  f_equal; try reflexivity; rewrite <- ?app_assoc; reflexivity.

(** Running a computation on a state that is spelled out. *)
Ltac steps :=
  cbv beta iota delta
    [register modify bind Mesh checkMesh gets ret log_Fatal log_Println emit log
     Aex Msat Alpha B_ext DMI Ku1 ku1_red AnisU Xi SpinPol J ExchangeMask
     EnableDemag M_buffer globalmesh torquebuffer regions extFields itime demag_
     gridsize cellsize Quants trace
     set_Msat set_B_ext set_DMI set_J set_EnableDemag set_Ku1 set_ku1_red
     set_AnisU set_ExchangeMask set_M_buffer set_globalmesh set_torquebuffer
     set_regions set_extFields set_itime set_demag_ set_gridsize set_cellsize
     set_Quants set_trace].

(** ** Logging leaves the variables alone *)

Lemma log_nil (s : state) : log [] s = s.
Proof. destruct s. unfold log, set_trace. cbn. by rewrite app_nil_r. Qed.

Lemma log_log (a b : list event) (s : state) : log b (log a s) = log (a ++ b) s.
Proof. unfold log, set_trace. cbn. by rewrite app_assoc. Qed.

Lemma trace_log (evs : list event) (s : state) : trace (log evs s) = trace s ++ evs.
Proof. reflexivity. Qed.

Lemma reg_log (c : bool) (name : string) (s : state) :
  (if c then emit (EvRegister name) else ret tt) s = Ok tt (log (reg c name) s).
Proof. destruct c; cbn; [reflexivity | by rewrite log_nil]. Qed.

(** Both sides are states spelled out; only the bracketing of the
    trace differs. *)
Ltac same_state :=
  unfold log, reg, set_trace; cbn; rewrite <- ?app_assoc, ?app_nil_r; cbn;
  try reflexivity.

(** ** Each quantity on its own *)

Lemma set_B_demag_ok (s : state) (dst : Slice) (c : bool) :
  EnableDemag s && Msat_is_zero s = false ->
  set B_demag dst c s = Ok (demag_field s dst) (log (demag_events s c) s).
Proof.
  intros Hok. unfold B_demag, demag_field, demag_events.
  unfold Msat_is_zero in Hok. run.
  destruct (EnableDemag s); cbn in *.
  - rewrite Hok. cbn. destruct c; same_state.
  - destruct c; same_state.
Qed.

Lemma set_B_demag_fatal (s : state) (dst : Slice) (c : bool) :
  EnableDemag s = true -> Msat_is_zero s = true ->
  set B_demag dst c s = Fatal "Msat should be nonzero" s.
Proof.
  intros He Hz. unfold B_demag.
  unfold Msat_is_zero, Go.float64_eqb in Hz. run. rewrite He. cbn. by rewrite Hz.
Qed.

Lemma addTo_B_exch_ok (s : state) (dst : Slice) (c : bool) :
  Msat_is_zero s = false ->
  addTo B_exch dst c s = Ok (plus_exchange s dst) (log (exchange_events c) s).
Proof.
  intros Hz. unfold Msat_is_zero, Go.float64_eqb in Hz. unfold B_exch. run.
  rewrite Hz. cbn. destruct c; same_state.
Qed.

Lemma addTo_B_exch_fatal (s : state) (dst : Slice) (c : bool) :
  Msat_is_zero s = true ->
  addTo B_exch dst c s = Fatal "Msat should be nonzero" s.
Proof.
  intros Hz. unfold Msat_is_zero, Go.float64_eqb in Hz. unfold B_exch. run.
  by rewrite Hz.
Qed.

Lemma addTo_B_dmi_eq (s : state) (dst : Slice) (c : bool) :
  addTo B_dmi dst c s = Ok (plus_dmi s dst) (log (dmi_events s c) s).
Proof.
  unfold B_dmi, plus_dmi, dmi_events, DMI_is_zero, Go.float64_eqb. run.
  destruct (PrimFloat.eqb (DMI s tt) 0); cbn; destruct c; cbn;
    rewrite ?log_nil; same_state.
Qed.

Lemma addTo_B_uni_eq (s : state) (dst : Slice) (c : bool) :
  addTo B_uni dst c s = Ok (plus_anisotropy s dst) (log (anisotropy_events c) s).
Proof. unfold B_uni. run. destruct c; same_state. Qed.

Lemma add_extFields_eq (fs : list extField) (dst : Slice) (s : state) :
  add_extFields fs dst s
  = Ok (fold_left plus_mask fs dst) (log (replicate (length fs) (EvKernel KMadd2)) s).
Proof.
  revert dst s. induction fs as [|f fs IH]; intros dst s; cbn.
  - by rewrite log_nil.
  - run. rewrite IH. same_state.
Qed.

Lemma addTo_b_ext_eq (s : state) (dst : Slice) (c : bool) :
  addTo b_ext dst c s = Ok (plus_external s dst) (log (external_events s c) s).
Proof.
  unfold b_ext, plus_external, external_events. run.
  rewrite add_extFields_eq. cbn. destruct c; same_state.
Qed.

Lemma addTo_STTorque_eq (s : state) (dst : Slice) (c : bool) :
  addTo STTorque dst c s = Ok (plus_sttorque s dst) (log (sttorque_events s c) s).
Proof.
  unfold STTorque, plus_sttorque, sttorque_events, J_is_zero. run.
  destruct (Go.float3_eqb (J s tt) _); cbn; destruct c; cbn;
    rewrite ?log_nil; same_state.
Qed.

(** ** The values and events do not depend on the trace *)

Section Frame.
Variables (evs : list event) (s : state).

Lemma Msat_is_zero_log : Msat_is_zero (log evs s) = Msat_is_zero s.
Proof. reflexivity. Qed.
Lemma demag_field_log : demag_field (log evs s) = demag_field s.
Proof. reflexivity. Qed.
Lemma plus_exchange_log : plus_exchange (log evs s) = plus_exchange s.
Proof. reflexivity. Qed.
Lemma plus_dmi_log : plus_dmi (log evs s) = plus_dmi s.
Proof. reflexivity. Qed.
Lemma plus_anisotropy_log : plus_anisotropy (log evs s) = plus_anisotropy s.
Proof. reflexivity. Qed.
Lemma plus_external_log : plus_external (log evs s) = plus_external s.
Proof. reflexivity. Qed.
Lemma effective_field_log : effective_field (log evs s) = effective_field s.
Proof. reflexivity. Qed.
Lemma ll_torque_log : ll_torque (log evs s) = ll_torque s.
Proof. reflexivity. Qed.
Lemma plus_sttorque_log : plus_sttorque (log evs s) = plus_sttorque s.
Proof. reflexivity. Qed.
Lemma demag_events_log : demag_events (log evs s) = demag_events s.
Proof. reflexivity. Qed.
Lemma dmi_events_log : dmi_events (log evs s) = dmi_events s.
Proof. reflexivity. Qed.
Lemma external_events_log : external_events (log evs s) = external_events s.
Proof. reflexivity. Qed.
Lemma sttorque_events_log : sttorque_events (log evs s) = sttorque_events s.
Proof. reflexivity. Qed.
Lemma B_eff_events_log : B_eff_events (log evs s) = B_eff_events s.
Proof. reflexivity. Qed.
Lemma LLTorque_events_log : LLTorque_events (log evs s) = LLTorque_events s.
Proof. reflexivity. Qed.
Lemma M_buffer_log : M_buffer (log evs s) = M_buffer s.
Proof. reflexivity. Qed.
Lemma Alpha_log : Alpha (log evs s) = Alpha s.
Proof. reflexivity. Qed.
End Frame.

Create Rewrite HintDb frame.
#[local] Hint Rewrite Msat_is_zero_log demag_field_log plus_exchange_log plus_dmi_log
  plus_anisotropy_log plus_external_log effective_field_log ll_torque_log
  plus_sttorque_log demag_events_log dmi_events_log external_events_log
  sttorque_events_log B_eff_events_log LLTorque_events_log M_buffer_log Alpha_log
  log_log : frame.

Ltac frame := autorewrite with frame.

(** ** The compositions *)

Lemma set_unfold (q : setterQuant) (dst : Slice) (c : bool) (s : state) :
  set q dst c s
  = match setFn q dst c s with
    | Ok d s' => Ok d (log (reg c (sq_name q)) s')
    | Fatal msg s' => Fatal msg s'
    end.
Proof.
  unfold set, bind. destruct (setFn q dst c s) as [d s'|msg s']; [|reflexivity].
  rewrite reg_log. reflexivity.
Qed.

Lemma Msat_zero_demag (s : state) :
  Msat_is_zero s = false -> EnableDemag s && Msat_is_zero s = false.
Proof. intros ->. apply andb_false_r. Qed.

Lemma set_B_eff_ok (s : state) (dst : Slice) (c : bool) :
  Msat_is_zero s = false ->
  set B_eff dst c s = Ok (effective_field s dst) (log (B_eff_events s c) s).
Proof.
  intros Hz. rewrite set_unfold. unfold B_eff. cbn [setFn setter sq_name]. unfold bind.
  rewrite set_B_demag_ok by by apply Msat_zero_demag.
  rewrite addTo_B_exch_ok by exact Hz.
  rewrite addTo_B_dmi_eq, addTo_B_uni_eq, addTo_b_ext_eq. frame.
  unfold effective_field, B_eff_events. by rewrite <- !app_assoc.
Qed.

Lemma set_B_eff_fatal (s : state) (dst : Slice) (c : bool) :
  Msat_is_zero s = true ->
  set B_eff dst c s
  = Fatal "Msat should be nonzero" (log (B_eff_events_to_exit s c) s).
Proof.
  intros Hz. rewrite set_unfold. unfold B_eff, B_eff_events_to_exit.
  cbn [setFn setter sq_name]. unfold bind.
  destruct (EnableDemag s) eqn:He.
  - rewrite set_B_demag_fatal by assumption. by rewrite log_nil.
  - rewrite set_B_demag_ok by by rewrite He.
    rewrite addTo_B_exch_fatal by exact Hz. reflexivity.
Qed.

Lemma set_LLTorque_ok (s : state) (dst : Slice) (c : bool) :
  Msat_is_zero s = false ->
  set LLTorque dst c s = Ok (ll_torque s dst) (log (LLTorque_events s c) s).
Proof.
  intros Hz. rewrite set_unfold. unfold LLTorque. cbn [setFn setter sq_name].
  unfold bind. rewrite set_B_eff_ok by exact Hz.
  unfold launch, emit, gets, call, modify, bind, ret. cbn. frame.
  reflexivity.
Qed.

Lemma set_LLTorque_fatal (s : state) (dst : Slice) (c : bool) :
  Msat_is_zero s = true ->
  set LLTorque dst c s
  = Fatal "Msat should be nonzero" (log (B_eff_events_to_exit s c) s).
Proof.
  intros Hz. rewrite set_unfold. unfold LLTorque. cbn [setFn setter sq_name].
  unfold bind. by rewrite set_B_eff_fatal.
Qed.

Lemma set_Torque_ok (s : state) (dst : Slice) (c : bool) :
  Msat_is_zero s = false ->
  set Torque dst c s = Ok (total_torque s dst) (log (Torque_events s c) s).
Proof.
  intros Hz. rewrite set_unfold. unfold Torque. cbn [setFn setter sq_name].
  unfold bind. rewrite set_LLTorque_ok by exact Hz.
  rewrite addTo_STTorque_eq. frame.
  unfold total_torque, Torque_events. by rewrite <- ?app_assoc.
Qed.

Lemma set_Torque_fatal (s : state) (dst : Slice) (c : bool) :
  Msat_is_zero s = true ->
  set Torque dst c s
  = Fatal "Msat should be nonzero" (log (B_eff_events_to_exit s c) s).
Proof.
  intros Hz. rewrite set_unfold. unfold Torque. cbn [setFn setter sq_name].
  unfold bind. by rewrite set_LLTorque_fatal.
Qed.

(** ** One tick *)

Lemma torqueFn_ok (c : bool) (s : state) :
  Msat_is_zero s = false ->
  torqueFn c s = Ok (total_torque s (torquebuffer s)) (after_tick c s).
Proof.
  intros Hz. unfold torqueFn, Table_arm, Table_touch, notifySave, emit, modify, gets.
  unfold bind at 1 2 3 4 5 6 7. cbn beta iota.
  rewrite set_Torque_ok by exact Hz. unfold bind. cbn beta iota.
  unfold after_tick. f_equal. destruct s. same_vars.
Qed.

Lemma torqueFn_fatal (c : bool) (s : state) :
  Msat_is_zero s = true ->
  torqueFn c s = Fatal "Msat should be nonzero" (after_stopped_tick c s).
Proof.
  intros Hz. unfold torqueFn, Table_arm, Table_touch, notifySave, emit, modify, gets.
  unfold bind at 1 2 3 4 5 6 7. cbn beta iota.
  rewrite set_Torque_fatal by exact Hz.
  unfold after_stopped_tick. f_equal. destruct s. same_vars.
Qed.


(** ** Setting the mesh *)

Lemma Mesh_eq (s : state) :
  Mesh s = if mesh_unset s then Fatal "need to set mesh first" s
           else Ok (globalmesh s) s.
Proof.
  unfold Mesh, checkMesh, mesh_unset, bind, gets, log_Fatal, ret.
  by destruct (Go.int3_eqb _ _).
Qed.

Lemma initialize_ok (s : state) :
  mesh_unset s = false -> initialize s = Ok tt (initialized s).
Proof.
  intros Hm. unfold mesh_unset in Hm. destruct s.
  cbv beta iota delta [globalmesh] in Hm.
  unfold initialize, initialized.
  repeat (progress (rewrite ?Hm; steps)).
  reflexivity.
Qed.

Lemma NewMesh_not_unset (Nx Ny Nz : Z) (cx cy cz : float) :
  1 < Nx ->
  Go.int3_eqb (data.Size (data.NewMesh Nz Ny Nx cz cy cx)) (Go.Arr3 0 0 0) = false.
Proof.
  intros Hx. unfold Go.int3_eqb. cbn.
  replace (Nx =? 0) with false by (symmetry; apply Z.eqb_neq; lia).
  apply andb_false_r.
Qed.

Lemma SetMesh_fatal (Nx Ny Nz : Z) (cx cy cz : float) (s : state) :
  Nx <= 1 ->
  SetMesh Nx Ny Nz cx cy cz s
  = Fatal ("mesh size X should be > 1, have: " +:+ pretty Nx) s.
Proof.
  intros Hx. unfold SetMesh. unfold bind at 1.
  replace (Nx <=? 1) with true by (symmetry; apply Z.leb_le; lia).
  reflexivity.
Qed.

Lemma SetMesh_ok (Nx Ny Nz : Z) (cx cy cz : float) (s : state) :
  1 < Nx ->
  SetMesh Nx Ny Nz cx cy cz s = Ok tt (after_SetMesh Nx Ny Nz cx cy cz s).
Proof.
  intros Hx. pose proof (NewMesh_not_unset Nx Ny Nz cx cy cz Hx) as Hm.
  unfold SetMesh, after_SetMesh.
  replace (Nx <=? 1) with false by (symmetry; apply Z.leb_gt; lia).
  unfold bind at 1. unfold ret at 1. unfold bind at 1. unfold modify at 1.
  unfold bind at 1. rewrite Mesh_eq. unfold mesh_unset.
  destruct s. steps. rewrite Hm. steps.
  rewrite initialize_ok by exact Hm. reflexivity.
Qed.

(** The accessors on a state whose mesh is set. *)
Lemma GridSize_eq (s : state) :
  mesh_unset s = false ->
  GridSize s = Ok (Go.Arr3 (Go.at2 (data.Size (globalmesh s)))
                     (Go.at1 (data.Size (globalmesh s)))
                     (Go.at0 (data.Size (globalmesh s)))) s.
Proof. intros Hm. unfold GridSize, bind. rewrite Mesh_eq, Hm. reflexivity. Qed.

Lemma CellSize_eq (s : state) :
  mesh_unset s = false ->
  CellSize s = Ok (Go.Arr3 (Go.at2 (data.CellSize (globalmesh s)))
                     (Go.at1 (data.CellSize (globalmesh s)))
                     (Go.at0 (data.CellSize (globalmesh s)))) s.
Proof. intros Hm. unfold CellSize, bind. rewrite Mesh_eq, Hm. reflexivity. Qed.

Lemma WorldSize_eq (s : state) :
  mesh_unset s = false ->
  WorldSize s = Ok (Go.Arr3 (Go.at2 (data.WorldSize (globalmesh s)))
                      (Go.at1 (data.WorldSize (globalmesh s)))
                      (Go.at0 (data.WorldSize (globalmesh s)))) s.
Proof. intros Hm. unfold WorldSize, bind. rewrite Mesh_eq, Hm. reflexivity. Qed.

Lemma globalmesh_after_SetMesh (Nx Ny Nz : Z) (cx cy cz : float) (s : state) :
  globalmesh (after_SetMesh Nx Ny Nz cx cy cz s) = data.NewMesh Nz Ny Nx cz cy cx.
Proof. reflexivity. Qed.

(** ** The mesh claims *)

(** C2.  After [SetMesh Nx Ny Nz cx cy cz] with [Nx > 1] the call has
    returned, the mesh is stored as [Nz, Ny, Nx], [GridSize()] returns
    [[Nx, Ny, Nz]], [CellSize()] returns [[cx, cy, cz]], and
    [WorldSize()] is the product of the two, component by component. *)
Theorem accessors_after_SetMesh (s : state) (Nx Ny Nz : Z) (cx cy cz : float) :
  1 < Nx ->
  let o := SetMesh Nx Ny Nz cx cy cz s in
  let s' := final o in
  fatal o = None /\
  data.Size (globalmesh s') = Go.Arr3 Nz Ny Nx /\
  GridSize s' = Ok (Go.Arr3 Nx Ny Nz) s' /\
  CellSize s' = Ok (Go.Arr3 cx cy cz) s' /\
  WorldSize s'
  = Ok (Go.Arr3 (Go.float64_of_int Nx * cx) (Go.float64_of_int Ny * cy)
          (Go.float64_of_int Nz * cz))%float s'.
Proof.
  intros Hx o s'. subst o s'. rewrite SetMesh_ok by exact Hx.
  cbn [final fatal].
  assert (mesh_unset (after_SetMesh Nx Ny Nz cx cy cz s) = false) as Hm
    by exact (NewMesh_not_unset Nx Ny Nz cx cy cz Hx).
  rewrite GridSize_eq, CellSize_eq, WorldSize_eq by exact Hm.
  rewrite globalmesh_after_SetMesh. repeat split; reflexivity.
Qed.

(** C10.  [SetMesh] looks at the X cell count only: it stops with the
    fatal message exactly when [Nx <= 1], whatever [Ny], [Nz] and the
    cell sizes are. *)
Theorem SetMesh_checks_Nx_only (s : state) (Nx Ny Nz : Z) (cx cy cz : float) :
  fatal (SetMesh Nx Ny Nz cx cy cz s)
  = (if Nx <=? 1
     then Some ("mesh size X should be > 1, have: " +:+ pretty Nx)
     else None)
  /\ (is_Some (fatal (SetMesh Nx Ny Nz cx cy cz s)) <-> Nx <= 1).
Proof.
  destruct (Z.leb_spec Nx 1) as [Hx|Hx].
  - rewrite SetMesh_fatal by exact Hx. cbn [fatal]. split; [reflexivity|].
    split; [intros _; exact Hx | intros _; eexists; reflexivity].
  - rewrite SetMesh_ok by exact Hx. cbn [fatal]. split; [reflexivity|].
    split; [intros [x Hx']; discriminate | lia].
Qed.

(** ** The claims on the field assembly *)

Lemma kernels_of_app (a b : list event) :
  kernels_of (a ++ b) = kernels_of a ++ kernels_of b.
Proof. apply omap_app. Qed.

Lemma kernels_of_reg (c : bool) (name : string) : kernels_of (reg c name) = [].
Proof. by destruct c. Qed.

Lemma kernels_of_replicate (n : nat) (k : kernel) :
  kernels_of (replicate n (EvKernel k)) = replicate n k.
Proof. induction n as [|n IH]; [reflexivity|]. cbn. unfold kernels_of in IH. by rewrite IH. Qed.

Lemma pipeline_replicate (n : nat) (k : kernel) :
  forallb is_pipeline_event (replicate n (EvKernel k)) = true.
Proof. induction n as [|n IH]; [reflexivity | exact IH]. Qed.

Lemma pipeline_reg (c : bool) (name : string) :
  forallb is_pipeline_event (reg c name) = true.
Proof. by destruct c. Qed.

Lemma pipeline_B_eff_events (s : state) (c : bool) :
  forallb is_pipeline_event (B_eff_events s c) = true.
Proof.
  unfold B_eff_events, demag_events, exchange_events, dmi_events, anisotropy_events,
    external_events.
  repeat first [ rewrite forallb_app | rewrite pipeline_reg
               | rewrite pipeline_replicate | progress cbn [forallb is_pipeline_event andb] ].
  by destruct (DMI_is_zero s).
Qed.

Lemma pipeline_Torque_events (s : state) (c : bool) :
  forallb is_pipeline_event (Torque_events s c) = true.
Proof.
  unfold Torque_events, LLTorque_events, sttorque_events.
  repeat first [ rewrite forallb_app | rewrite pipeline_reg | rewrite pipeline_B_eff_events
               | progress cbn [forallb is_pipeline_event andb] ].
  by destruct (J_is_zero s).
Qed.

Lemma pipeline_to_exit (s : state) (c : bool) :
  forallb is_pipeline_event (B_eff_events_to_exit s c) = true.
Proof.
  unfold B_eff_events_to_exit, demag_events.
  destruct (EnableDemag s); [reflexivity|]. cbn. apply pipeline_reg.
Qed.

(** The closures of the two adders that skip their kernel. *)
Lemma addFn_STTorque_eq (s : state) (dst : Slice) :
  addFn STTorque dst s
  = Ok (plus_sttorque s dst)
      (log (if J_is_zero s then [] else [EvKernel KAddZhangLiTorque]) s).
Proof.
  unfold STTorque, plus_sttorque, J_is_zero. run.
  destruct (Go.float3_eqb (J s tt) _); cbn; rewrite ?log_nil; reflexivity.
Qed.

Lemma addFn_B_dmi_eq (s : state) (dst : Slice) :
  addFn B_dmi dst s
  = Ok (plus_dmi s dst) (log (if DMI_is_zero s then [] else [EvKernel KAddDMI]) s).
Proof.
  unfold B_dmi, plus_dmi, DMI_is_zero, Go.float64_eqb. run.
  destruct (PrimFloat.eqb (DMI s tt) 0); cbn; rewrite ?log_nil; reflexivity.
Qed.

Lemma addFn_b_ext_eq (s : state) (dst : Slice) :
  addFn b_ext dst s
  = Ok (plus_external s dst)
      (log (EvKernel KAddConst :: replicate (length (extFields s)) (EvKernel KMadd2)) s).
Proof.
  unfold b_ext, plus_external. run. rewrite add_extFields_eq. same_state.
Qed.

(** C5.  With a current density of exactly [[0,0,0]] the closure of
    [STTorque] returns at once, and [STTorque.addTo] hands [dst] back as
    it was; the same holds for [B_dmi] with a DMI coefficient of exactly
    0.  Neither launches a kernel: the only event is the registration
    that [cansave] asks for. *)
Theorem zero_skip (s : state) (dst : Slice) (cansave : bool) :
  (J s tt = (Go.Arr3 0 0 0)%float ->
   addFn STTorque dst s = Ok dst s
   /\ addTo STTorque dst cansave s = Ok dst (log (reg cansave "sttorque") s))
  /\ (DMI s tt = 0%float ->
      addFn B_dmi dst s = Ok dst s
      /\ addTo B_dmi dst cansave s = Ok dst (log (reg cansave "B_dmi") s)).
Proof.
  split; intros Hzero; split.
  - rewrite addFn_STTorque_eq.
    unfold plus_sttorque, J_is_zero. rewrite Hzero. cbn. by rewrite log_nil.
  - rewrite addTo_STTorque_eq.
    unfold plus_sttorque, sttorque_events, J_is_zero. rewrite Hzero. reflexivity.
  - rewrite addFn_B_dmi_eq.
    unfold plus_dmi, DMI_is_zero. rewrite Hzero. cbn. by rewrite log_nil.
  - rewrite addTo_B_dmi_eq.
    unfold plus_dmi, dmi_events, DMI_is_zero. rewrite Hzero. reflexivity.
Qed.

(** C6.  [B_eff.set] stops in the check of [Msat] when [Msat()] is zero.
    Otherwise the destination holds the demag field to which exchange,
    DMI, anisotropy and the external field were added one after the
    other, and the kernels were launched in that order; both are
    functions of the variables and of [dst]. *)
Theorem B_eff_summation_order (s : state) (dst : Slice) (cansave : bool) :
  let o := set B_eff dst cansave s in
  if Msat_is_zero s then result o = inl "Msat should be nonzero"
  else
    result o
    = inr (plus_external s (plus_anisotropy s (plus_dmi s
             (plus_exchange s (demag_field s dst)))))
    /\ exists evs,
         trace (final o) = trace s ++ evs
         /\ kernels_of evs
            = [if EnableDemag s then KExec else KZero; KAddExchange]
              ++ (if DMI_is_zero s then [] else [KAddDMI])
              ++ [KAddUniaxialAnisotropy; KAddConst]
              ++ replicate (length (extFields s)) KMadd2.
Proof.
  intros o. subst o. destruct (Msat_is_zero s) eqn:Hz.
  - by rewrite set_B_eff_fatal.
  - rewrite set_B_eff_ok by exact Hz. split; [reflexivity|].
    exists (B_eff_events s cansave). split; [reflexivity|].
    unfold B_eff_events, demag_events, exchange_events, dmi_events,
      anisotropy_events, external_events.
    repeat first [ rewrite kernels_of_app | rewrite kernels_of_reg
                 | rewrite kernels_of_replicate | rewrite app_nil_r
                 | progress cbn [kernels_of omap list_omap app] ].
    by destruct (DMI_is_zero s).
Qed.

(** What a setter hands back as a function of the variables: the fatal
    message where the check of [Msat] stops it, its value otherwise. *)
Lemma result_set_B_demag (s : state) (dst : Slice) (c : bool) :
  result (set B_demag dst c s)
  = if EnableDemag s && Msat_is_zero s
    then inl "Msat should be nonzero" else inr (demag_field s dst).
Proof.
  destruct (EnableDemag s && Msat_is_zero s) eqn:Hc.
  - apply andb_true_iff in Hc as [He Hz]. by rewrite set_B_demag_fatal.
  - by rewrite set_B_demag_ok.
Qed.

Lemma result_set_B_eff (s : state) (dst : Slice) (c : bool) :
  result (set B_eff dst c s)
  = if Msat_is_zero s
    then inl "Msat should be nonzero" else inr (effective_field s dst).
Proof.
  destruct (Msat_is_zero s) eqn:Hz;
    [by rewrite set_B_eff_fatal | by rewrite set_B_eff_ok].
Qed.

Lemma result_set_LLTorque (s : state) (dst : Slice) (c : bool) :
  result (set LLTorque dst c s)
  = if Msat_is_zero s
    then inl "Msat should be nonzero" else inr (ll_torque s dst).
Proof.
  destruct (Msat_is_zero s) eqn:Hz;
    [by rewrite set_LLTorque_fatal | by rewrite set_LLTorque_ok].
Qed.

Lemma result_set_Torque (s : state) (dst : Slice) (c : bool) :
  result (set Torque dst c s)
  = if Msat_is_zero s
    then inl "Msat should be nonzero" else inr (total_torque s dst).
Proof.
  destruct (Msat_is_zero s) eqn:Hz;
    [by rewrite set_Torque_fatal | by rewrite set_Torque_ok].
Qed.

(** A setter changes no variable; it only adds to the trace. *)
Lemma erase_set_B_demag (s : state) (dst : Slice) (c : bool) :
  erase (final (set B_demag dst c s)) = erase s.
Proof.
  destruct (EnableDemag s && Msat_is_zero s) eqn:Hc.
  - apply andb_true_iff in Hc as [He Hz]. by rewrite set_B_demag_fatal.
  - by rewrite set_B_demag_ok.
Qed.

Lemma erase_set_B_eff (s : state) (dst : Slice) (c : bool) :
  erase (final (set B_eff dst c s)) = erase s.
Proof.
  destruct (Msat_is_zero s) eqn:Hz;
    [by rewrite set_B_eff_fatal | by rewrite set_B_eff_ok].
Qed.

Lemma erase_set_LLTorque (s : state) (dst : Slice) (c : bool) :
  erase (final (set LLTorque dst c s)) = erase s.
Proof.
  destruct (Msat_is_zero s) eqn:Hz;
    [by rewrite set_LLTorque_fatal | by rewrite set_LLTorque_ok].
Qed.

Lemma erase_set_Torque (s : state) (dst : Slice) (c : bool) :
  erase (final (set Torque dst c s)) = erase s.
Proof.
  destruct (Msat_is_zero s) eqn:Hz;
    [by rewrite set_Torque_fatal | by rewrite set_Torque_ok].
Qed.

(** C1.  For each of the setters [B_demag], [B_eff], [LLTorque] and
    [Torque], what [set(dst, cansave)] leaves in [dst] is the value of
    the quantity for the current variables and [dst]: [cansave] and the
    trace do not enter it.  The runs with [cansave = true] and
    [cansave = false] from one state agree on the contents of [dst] (or
    on the fatal message) and on every variable; they differ in the
    trace only. *)
Theorem setters_ignore_cansave (s : state) (dst : Slice) :
  (forall q, In q [B_demag; B_eff; LLTorque; Torque] ->
     same_outcome (set q dst true s) (set q dst false s))
  /\ (forall c,
        result (set B_demag dst c s)
        = (if EnableDemag s && Msat_is_zero s
           then inl "Msat should be nonzero" else inr (demag_field s dst))
        /\ result (set B_eff dst c s)
           = (if Msat_is_zero s
              then inl "Msat should be nonzero" else inr (effective_field s dst))
        /\ result (set LLTorque dst c s)
           = (if Msat_is_zero s
              then inl "Msat should be nonzero" else inr (ll_torque s dst))
        /\ result (set Torque dst c s)
           = (if Msat_is_zero s
              then inl "Msat should be nonzero" else inr (total_torque s dst))).
Proof.
  split.
  - intros q Hq. unfold same_outcome. cbn [In] in Hq.
    destruct Hq as [<-|[<-|[<-|[<-|[]]]]].
    + by rewrite !result_set_B_demag, !erase_set_B_demag.
    + by rewrite !result_set_B_eff, !erase_set_B_eff.
    + by rewrite !result_set_LLTorque, !erase_set_LLTorque.
    + by rewrite !result_set_Torque, !erase_set_Torque.
  - intros c. repeat split.
    + apply result_set_B_demag.
    + apply result_set_B_eff.
    + apply result_set_LLTorque.
    + apply result_set_Torque.
Qed.

(** ** Where the axes are reversed *)


(** ** One evaluation of the torque *)


(** ** The derived anisotropy parameter *)

Ltac param_steps :=
  cbv beta iota delta
    [SetRegion setRegion GetRegion run_post_update param_get param_set with_table
     bind gets modify call ret log_Fatal final fatal value
     sp_name sp_unit sp_table post_update
     Aex Msat Alpha B_ext DMI Ku1 ku1_red AnisU Xi SpinPol J ExchangeMask
     EnableDemag M_buffer globalmesh torquebuffer regions extFields itime demag_
     gridsize cellsize Quants trace set_Ku1 set_ku1_red].

(** A write to [Ku1] with the callback installed recomputes the row of
    [ku1_red] as the new value divided by [Msat()]. *)
Lemma Ku1_write_recomputes (s : state) (region : Z) (v : float) :
  post_update (Ku1 s) = Some Ku1_hook ->
  0 <= region ->
  (Z.to_nat region < length (sp_table (Ku1 s)))%nat ->
  (Z.to_nat region < length (sp_table (ku1_red s)))%nat ->
  let o := SetRegion Var_Ku1 region v s in
  fatal o = None
  /\ value (GetRegion Var_Ku1 region (final o)) = Some v
  /\ value (GetRegion Var_ku1_red region (final o)) = Some (v / Msat s tt)%float.
Proof.
  intros Hhook Hr H1 H2 o. subst o. destruct s as [? ? ? ? ? k r ? ? ? ? ? ? ? ? ? ? ? ? ? ? ? ? ?].
  destruct k as [kn ku kt kh], r as [rn ru rt rh].
  cbn [Ku1 ku1_red sp_table post_update] in Hhook, H1, H2. subst kh.
  apply Nat.ltb_lt in H1, H2. apply Z.leb_le in Hr.
  assert (forall (l : list float) (x : float),
            (Z.to_nat region <? length l)%nat = true ->
            <[Z.to_nat region := x]> l !! Z.to_nat region = Some x) as Hlook.
  { intros l x Hl. apply list_lookup_insert_eq. by apply Nat.ltb_lt. }
  repeat (progress (param_steps;
                    rewrite ?Hr, ?H1, ?H2, ?(Hlook _ _ H1), ?(Hlook _ _ H2);
                    cbn [andb])).
  repeat split.
Qed.

(** ** The check of the saturation magnetization *)

Lemma kernels_to_exit (s : state) (c : bool) :
  kernels_of (B_eff_events_to_exit s c) = if EnableDemag s then [] else [KZero].
Proof.
  unfold B_eff_events_to_exit, demag_events. destruct (EnableDemag s); [reflexivity|].
  change (kernels_of (EvKernel KZero :: reg c "B_demag"))
    with (KZero :: kernels_of (reg c "B_demag")).
  by rewrite kernels_of_reg.
Qed.

(** C3, as amended.  With [Msat()] zero, [B_demag.set] (demag enabled) and
    [B_exch.addTo] stop with the fatal message naming [Msat] before their
    kernel: the state, and with it the trace, is as it was.  [B_eff.set],
    [LLTorque.set], [Torque.set] and the torque function stop with the
    same message before any kernel that takes [Msat] or the reduced
    anisotropy: the one kernel they may have launched is the zeroing of
    the buffer when demag is disabled. *)
Theorem Msat_checked_in_pipeline (s : state) (dst : Slice) (c : bool) :
  Msat_is_zero s = true ->
  (EnableDemag s = true -> set B_demag dst c s = Fatal "Msat should be nonzero" s)
  /\ addTo B_exch dst c s = Fatal "Msat should be nonzero" s
  /\ (forall q, In q [B_eff; LLTorque; Torque] ->
        fatal (set q dst c s) = Some "Msat should be nonzero"
        /\ kernels_of (trace (final (set q dst c s)))
           = kernels_of (trace s) ++ (if EnableDemag s then [] else [KZero]))
  /\ fatal (torqueFn c s) = Some "Msat should be nonzero"
  /\ kernels_of (trace (final (torqueFn c s)))
     = kernels_of (trace s) ++ (if EnableDemag s then [] else [KZero]).
Proof.
  intros Hz. split; [|split; [|split; [|split]]].
  - intros He. by apply set_B_demag_fatal.
  - by apply addTo_B_exch_fatal.
  - intros q Hq. cbn [In] in Hq. destruct Hq as [<-|[<-|[<-|[]]]].
    + rewrite set_B_eff_fatal by exact Hz. cbn [fatal final].
      split; [reflexivity|]. by rewrite trace_log, kernels_of_app, kernels_to_exit.
    + rewrite set_LLTorque_fatal by exact Hz. cbn [fatal final].
      split; [reflexivity|]. by rewrite trace_log, kernels_of_app, kernels_to_exit.
    + rewrite set_Torque_fatal by exact Hz. cbn [fatal final].
      split; [reflexivity|]. by rewrite trace_log, kernels_of_app, kernels_to_exit.
  - by rewrite torqueFn_fatal.
  - rewrite torqueFn_fatal by exact Hz. cbn [final]. unfold after_stopped_tick.
    change (trace (set_itime ?v ?x)) with (trace x).
    rewrite trace_log, !kernels_of_app, kernels_to_exit. reflexivity.
Qed.

(** * Further properties of the engine *)

(** ** Before the mesh is set *)

(** Every function that goes through [Mesh()] stops with the message of
    [checkMesh] while the stored cell counts are [[0,0,0]], and stops
    before it has changed anything: the accessors, the counts and
    [initialize] itself. *)
Theorem mesh_needed_first (s : state) :
  mesh_unset s = true ->
  Mesh s = Fatal "need to set mesh first" s
  /\ CellSize s = Fatal "need to set mesh first" s
  /\ WorldSize s = Fatal "need to set mesh first" s
  /\ GridSize s = Fatal "need to set mesh first" s
  /\ Nx s = Fatal "need to set mesh first" s
  /\ Ny s = Fatal "need to set mesh first" s
  /\ Nz s = Fatal "need to set mesh first" s
  /\ initialize s = Fatal "need to set mesh first" s.
Proof.
  intros Hm.
  assert (Mesh s = Fatal "need to set mesh first" s) as HM by by rewrite Mesh_eq, Hm.
  assert (GridSize s = Fatal "need to set mesh first" s) as HG
    by (unfold GridSize, bind; by rewrite HM).
  repeat split; try assumption.
  - unfold CellSize, bind. by rewrite HM.
  - unfold WorldSize, bind. by rewrite HM.
  - unfold Nx, bind. by rewrite HG.
  - unfold Ny, bind. by rewrite HG.
  - unfold Nz, bind. by rewrite HG.
  - unfold initialize. unfold bind at 1. by rewrite HM.
Qed.

(** After a [SetMesh] with an X count above 1, [Nx()], [Ny()] and [Nz()]
    return the three counts as they were given, and change nothing. *)
Theorem counts_after_SetMesh (s : state) (nx ny nz : Z) (cx cy cz : float) :
  1 < nx ->
  let s' := final (SetMesh nx ny nz cx cy cz s) in
  Nx s' = Ok nx s' /\ Ny s' = Ok ny s' /\ Nz s' = Ok nz s'.
Proof.
  intros Hx s'. subst s'. rewrite SetMesh_ok by exact Hx. cbn [final].
  assert (mesh_unset (after_SetMesh nx ny nz cx cy cz s) = false) as Hm
    by exact (NewMesh_not_unset nx ny nz cx cy cz Hx).
  unfold Nx, Ny, Nz, bind. rewrite GridSize_eq by exact Hm.
  rewrite globalmesh_after_SetMesh. repeat split.
Qed.

(** ** Setting the mesh in two calls *)

Lemma lazy_SetMesh_aux (s : state) (nx ny nz : Z) (cx cy cz : float) :
  gridsize s = None -> cellsize s = None ->
  setGridSize nx ny nz s = Ok tt (set_gridsize (Some (Go.Arr3 nx ny nz)) s)
  /\ (setGridSize nx ny nz ;;; setCellSize cx cy cz) s
     = SetMesh nx ny nz cx cy cz
         (set_cellsize (Some (Go.Arr3 cx cy cz))
            (set_gridsize (Some (Go.Arr3 nx ny nz)) s)).
Proof.
  intros Hg Hc. destruct s. cbn [gridsize cellsize] in Hg, Hc. subst.
  split; reflexivity.
Qed.

(** From a state in which neither the grid size nor the cell size was
    given, the two setters may come in either order: the first call only
    records its arguments, the second one runs [SetMesh] on all six, and
    both orders end in the same outcome. *)
Theorem lazy_SetMesh (s : state) (nx ny nz : Z) (cx cy cz : float) :
  gridsize s = None -> cellsize s = None ->
  let recorded :=
    set_cellsize (Some (Go.Arr3 cx cy cz)) (set_gridsize (Some (Go.Arr3 nx ny nz)) s) in
  setGridSize nx ny nz s = Ok tt (set_gridsize (Some (Go.Arr3 nx ny nz)) s)
  /\ setCellSize cx cy cz s = Ok tt (set_cellsize (Some (Go.Arr3 cx cy cz)) s)
  /\ (setGridSize nx ny nz ;;; setCellSize cx cy cz) s
     = SetMesh nx ny nz cx cy cz recorded
  /\ (setCellSize cx cy cz ;;; setGridSize nx ny nz) s
     = SetMesh nx ny nz cx cy cz recorded.
Proof.
  intros Hg Hc recorded. subst recorded.
  destruct s. cbn [gridsize cellsize] in Hg, Hc. subst.
  repeat split; reflexivity.
Qed.

(** The check of the X count is not made when the grid size is recorded
    but when the mesh is built: a count of 1 or less passes
    [setGridSize] and stops the later [setCellSize]. *)
Theorem lazy_SetMesh_late_check (s : state) (nx ny nz : Z) (cx cy cz : float) :
  gridsize s = None -> cellsize s = None -> nx <= 1 ->
  fatal (setGridSize nx ny nz s) = None
  /\ fatal ((setGridSize nx ny nz ;;; setCellSize cx cy cz) s)
     = Some ("mesh size X should be > 1, have: " +:+ pretty nx)
  /\ globalmesh (final ((setGridSize nx ny nz ;;; setCellSize cx cy cz) s))
     = globalmesh s.
Proof.
  intros Hg Hc Hx.
  destruct (lazy_SetMesh_aux s nx ny nz cx cy cz Hg Hc) as (H1 & H2).
  rewrite H1, H2. rewrite SetMesh_fatal by exact Hx. repeat split.
Qed.

(** ** Registering an external field *)

(** [AddExtField] needs no mesh and never stops.  It appends the device
    copy of the mask with its multiplier to [extFields], and the external
    field then computes what it computed before and adds the new term
    last; as the external field is the last term of the effective field,
    the same holds for [B_eff.set]. *)
Theorem AddExtField_adds_last
    (s : state) (msk : Slice) (multiplier : Go.func float) (dst : Slice) (c : bool) :
  let s' := final (AddExtField msk multiplier s) in
  let plus_new (r : Slice) :=
    cuda_Madd2 r r (cuda_GPUCopy msk) (to_float32 1) (to_float32 (multiplier tt)) in
  fatal (AddExtField msk multiplier s) = None
  /\ extFields s'
     = extFields s ++ [ {| mask := cuda_GPUCopy msk; mul := multiplier |} ]
  /\ erase (set_extFields (extFields s) s') = erase s
  /\ (forall r, value (addFn b_ext dst s) = Some r ->
        value (addFn b_ext dst s') = Some (plus_new r))
  /\ (forall r, value (set B_eff dst c s) = Some r ->
        value (set B_eff dst c s') = Some (plus_new r)).
Proof.
  intros s' plus_new. subst s' plus_new. unfold AddExtField, modify. cbn [final fatal].
  set (f := {| mask := cuda_GPUCopy msk; mul := multiplier |}).
  set (s' := set_extFields (extFields s ++ [f]) s).
  assert (forall d, plus_external s' d = plus_mask (plus_external s d) f) as Hext.
  { intros d. unfold plus_external. subst s'. cbn [extFields set_extFields B_ext].
    by rewrite fold_left_app. }
  split; [reflexivity|]. split; [reflexivity|]. split; [by destruct s|]. split.
  - intros r. rewrite !addFn_b_ext_eq. cbn [value]. intros [= <-]. by rewrite Hext.
  - intros r. destruct (Msat_is_zero s) eqn:Hz.
    + rewrite set_B_eff_fatal by exact Hz. discriminate.
    + rewrite set_B_eff_ok by exact Hz.
      rewrite (set_B_eff_ok s') by exact Hz.
      cbn [value]. intros [= <-]. unfold effective_field. by rewrite Hext.
Qed.

(** ** What [SetMesh] keeps and what it replaces *)

(** A [SetMesh] that passes its check prints one line and leaves the
    user inputs that are plain values, the registered external fields,
    the time stamp and the recorded sizes as they were.  It replaces the
    three region parameters by new tables: what was written to [Ku1],
    [ku1_red] or [AnisU] before is gone, and [Ku1] has its callback. *)
Theorem SetMesh_keeps_inputs (s : state) (nx ny nz : Z) (cx cy cz : float) :
  1 < nx ->
  let s' := final (SetMesh nx ny nz cx cy cz s) in
  (Aex s' = Aex s /\ Msat s' = Msat s /\ Alpha s' = Alpha s /\ B_ext s' = B_ext s
   /\ DMI s' = DMI s /\ Xi s' = Xi s /\ SpinPol s' = SpinPol s /\ J s' = J s
   /\ EnableDemag s' = EnableDemag s)
  /\ (extFields s' = extFields s /\ itime s' = itime s
      /\ gridsize s' = gridsize s /\ cellsize s' = cellsize s)
  /\ (Ku1 s' = with_post_update (Some Ku1_hook) (scalarParam "Ku1" "J/m3")
      /\ ku1_red s' = scalarParam "ku1_red" "T"
      /\ AnisU s' = vectorParam "anisU" "")
  /\ trace s'
     = trace s
       ++ [EvPrintln ("set mesh: " +:+ UserString (data.NewMesh nz ny nx cz cy cx))].
Proof.
  intros Hx s'. subst s'. rewrite SetMesh_ok by exact Hx. repeat split.
Qed.

Lemma Quants_after_SetMesh (s : state) (nx ny nz : Z) (cx cy cz : float) :
  Quants (after_SetMesh nx ny nz cx cy cz s)
  = {[ "torque" ]} ∪ ({[ "sttorque" ]} ∪ ({[ "lltorque" ]} ∪ ({[ "B_eff" ]} ∪
    ({[ "B_uni" ]} ∪ ({[ "B_dmi" ]} ∪ ({[ "exchangemask" ]} ∪ ({[ "B_exch" ]} ∪
    ({[ "B_demag" ]} ∪ ({[ "mFFT" ]} ∪ ({[ "regions" ]} ∪ ({[ "m" ]} ∪ Quants s))))))))))).
Proof. reflexivity. Qed.

(** After a [SetMesh] that passes its check the registry holds the twelve
    keys of [initialize] and what it held before, and nothing else: the
    external field, which [initialize] builds and does not register, is
    found under "B_ext" only if it was there before. *)
Theorem registry_after_SetMesh (s : state) (nx ny nz : Z) (cx cy cz : float) :
  1 < nx ->
  let s' := final (SetMesh nx ny nz cx cy cz s) in
  (forall name : string,
     name ∈ Quants s' <-> name ∈ registered \/ name ∈ Quants s)
  /\ ("B_ext" ∈ Quants s' -> "B_ext" ∈ Quants s).
Proof.
  intros Hx s'. subst s'. rewrite SetMesh_ok by exact Hx. cbn [final].
  rewrite Quants_after_SetMesh. unfold registered.
  split.
  - intros name. rewrite !elem_of_union, !elem_of_singleton, !elem_of_cons, elem_of_nil.
    tauto.
  - rewrite !elem_of_union, !elem_of_singleton.
    intros H'. repeat (destruct H' as [H'|H']; [discriminate|]). exact H'.
Qed.

(** ** The torque as a composition *)

(** With [Msat()] not zero, [LLTorque.set] hands back the
    Landau-Lifshitz kernel applied to what [B_eff.set] hands back, with
    that one buffer as destination and as field; [Torque.set] hands back
    that, with the spin-transfer torque added unless [J()] compares equal
    to zero.  The kernels of [Torque.set] are those of [B_eff.set], then
    the Landau-Lifshitz kernel, then the Zhang-Li kernel if it runs. *)
Theorem Torque_composition (s : state) (dst : Slice) (c : bool) :
  Msat_is_zero s = false ->
  exists b evs,
    set B_eff dst c s = Ok b (log evs s)
    /\ value (set LLTorque dst c s)
       = Some (cuda_LLTorque b (M_buffer s) b (to_float32 (Alpha s tt)))
    /\ value (set Torque dst c s)
       = value (addTo STTorque
                  (cuda_LLTorque b (M_buffer s) b (to_float32 (Alpha s tt))) c s)
    /\ kernels_of (trace (final (set Torque dst c s)))
       = kernels_of (trace s) ++ kernels_of evs ++ [KLLTorque]
         ++ (if J_is_zero s then [] else [KAddZhangLiTorque]).
Proof.
  intros Hz. exists (effective_field s dst), (B_eff_events s c).
  rewrite set_B_eff_ok, set_LLTorque_ok, set_Torque_ok, addTo_STTorque_eq by exact Hz.
  cbn [value final]. repeat split.
  rewrite trace_log. unfold Torque_events, LLTorque_events, sttorque_events.
  rewrite !kernels_of_app, !kernels_of_reg, !app_nil_r.
  change (kernels_of (EvKernel KLLTorque :: reg c "lltorque"))
    with (KLLTorque :: kernels_of (reg c "lltorque")).
  rewrite kernels_of_reg, <- !app_assoc. by destruct (J_is_zero s).
Qed.

(** ** What the quantities leave alone *)

Lemma log_exists_setter (q : setterQuant) (s : state) (dst : Slice) (c : bool) :
  In q [B_demag; B_eff; LLTorque; Torque] ->
  exists evs, final (set q dst c s) = log evs s
              /\ forallb is_pipeline_event evs = true.
Proof.
  intros Hq. cbn [In] in Hq. destruct Hq as [<-|[<-|[<-|[<-|[]]]]].
  - destruct (EnableDemag s && Msat_is_zero s) eqn:Hc.
    + apply andb_true_iff in Hc as [He Hz]. rewrite set_B_demag_fatal by assumption.
      exists []. by rewrite log_nil.
    + rewrite set_B_demag_ok by exact Hc. eexists. split; [reflexivity|].
      unfold demag_events. apply pipeline_reg.
  - destruct (Msat_is_zero s) eqn:Hz.
    + rewrite set_B_eff_fatal by exact Hz. eexists. split; [reflexivity|].
      apply pipeline_to_exit.
    + rewrite set_B_eff_ok by exact Hz. eexists. split; [reflexivity|].
      apply pipeline_B_eff_events.
  - destruct (Msat_is_zero s) eqn:Hz.
    + rewrite set_LLTorque_fatal by exact Hz. eexists. split; [reflexivity|].
      apply pipeline_to_exit.
    + rewrite set_LLTorque_ok by exact Hz. eexists. split; [reflexivity|].
      unfold LLTorque_events. rewrite forallb_app, pipeline_B_eff_events.
      apply pipeline_reg.
  - destruct (Msat_is_zero s) eqn:Hz.
    + rewrite set_Torque_fatal by exact Hz. eexists. split; [reflexivity|].
      apply pipeline_to_exit.
    + rewrite set_Torque_ok by exact Hz. eexists. split; [reflexivity|].
      apply pipeline_Torque_events.
Qed.

Lemma log_exists_adder (q : adderQuant) (s : state) (dst : Slice) (c : bool) :
  In q [B_exch; B_dmi; B_uni; b_ext; STTorque] ->
  exists evs, final (addTo q dst c s) = log evs s
              /\ forallb is_pipeline_event evs = true.
Proof.
  intros Hq. cbn [In] in Hq. destruct Hq as [<-|[<-|[<-|[<-|[<-|[]]]]]].
  - destruct (Msat_is_zero s) eqn:Hz.
    + rewrite addTo_B_exch_fatal by exact Hz. exists []. by rewrite log_nil.
    + rewrite addTo_B_exch_ok by exact Hz. eexists. split; [reflexivity|].
      apply pipeline_reg.
  - rewrite addTo_B_dmi_eq. eexists. split; [reflexivity|].
    unfold dmi_events. rewrite forallb_app, pipeline_reg. by destruct (DMI_is_zero s).
  - rewrite addTo_B_uni_eq. eexists. split; [reflexivity|]. apply pipeline_reg.
  - rewrite addTo_b_ext_eq. eexists. split; [reflexivity|].
    unfold external_events. cbn [forallb is_pipeline_event andb].
    by rewrite forallb_app, pipeline_replicate, pipeline_reg.
  - rewrite addTo_STTorque_eq. eexists. split; [reflexivity|].
    unfold sttorque_events. rewrite forallb_app, pipeline_reg. by destruct (J_is_zero s).
Qed.

(** No quantity of the pipeline writes a variable of the engine, whether
    it returns or stops: the magnetization, the parameters, the mesh and
    the time stamp are as before, and the trace has grown by kernel
    launches and registrations only. *)
Theorem quantities_only_log (s : state) (dst : Slice) (c : bool) :
  (forall q, In q [B_demag; B_eff; LLTorque; Torque] ->
     exists evs, final (set q dst c s) = log evs s
                 /\ forallb is_pipeline_event evs = true)
  /\ (forall q, In q [B_exch; B_dmi; B_uni; b_ext; STTorque] ->
        exists evs, final (addTo q dst c s) = log evs s
                    /\ forallb is_pipeline_event evs = true).
Proof.
  split; intros q Hq; [by apply log_exists_setter | by apply log_exists_adder].
Qed.



(** ** Values that are not numbers *)

(** The comparisons with zero are those of IEEE 754.  A saturation
    magnetization that is not a number passes the check, and the whole
    torque is computed with it; a negative zero is caught.  Likewise a
    DMI coefficient or a current component that is not a number does not
    count as zero, and the kernel runs. *)
Theorem NaN_is_not_zero (s : state) (dst : Slice) (c : bool) :
  (Msat s tt = nan -> fatal (torqueFn c s) = None)
  /\ (Msat s tt = (-0)%float -> fatal (torqueFn c s) = Some "Msat should be nonzero")
  /\ (DMI s tt = nan -> value (addTo B_dmi dst c s)
                        = Some (cuda_AddDMI dst (M_buffer s) nan (Msat s tt)))
  /\ (Go.at0 (J s tt) = nan \/ Go.at1 (J s tt) = nan \/ Go.at2 (J s tt) = nan ->
      kernels_of (trace (final (addTo STTorque dst c s)))
      = kernels_of (trace s) ++ [KAddZhangLiTorque]).
Proof.
  split; [|split; [|split]].
  - intros Hn. rewrite torqueFn_ok; [reflexivity|]. unfold Msat_is_zero. by rewrite Hn.
  - intros Hn. rewrite torqueFn_fatal; [reflexivity|]. unfold Msat_is_zero. by rewrite Hn.
  - intros Hn. rewrite addTo_B_dmi_eq. unfold plus_dmi, DMI_is_zero. by rewrite Hn.
  - intros Hn. rewrite addTo_STTorque_eq. cbn [final].
    rewrite trace_log, kernels_of_app. unfold sttorque_events.
    rewrite kernels_of_app, kernels_of_reg, app_nil_r.
    assert (J_is_zero s = false) as ->; [|reflexivity].
    unfold J_is_zero, Go.float3_eqb, Go.float64_eqb.
    destruct (J s tt) as [j0 j1 j2]. cbn [Go.at0 Go.at1 Go.at2] in *.
    destruct Hn as [-> | [-> | ->]].
    + reflexivity.
    + change (PrimFloat.eqb nan 0) with false. by rewrite andb_false_r.
    + change (PrimFloat.eqb nan 0) with false. by rewrite andb_false_r.
Qed.

(** ** The check of the magnetization *)

Section CheckM.

Variable DevPtr_is_nil : Slice -> Z -> bool.
Variable cuda_MaxVecNorm : Slice -> float.

(** [checkM] changes nothing.  It stops with the message of the mesh
    while the mesh is unset, whatever the magnetization is; with the mesh
    set it stops with the message of the magnetization when the buffer
    has no device memory or its largest norm compares equal to zero, and
    returns otherwise.  Where it returns, the accessors of the mesh
    return too. *)
Theorem checkM_cases (s : state) :
  checkM DevPtr_is_nil cuda_MaxVecNorm s
  = (if mesh_unset s then Fatal "need to set mesh first" s
     else if DevPtr_is_nil (M_buffer s) 0
             || Go.float64_eqb (cuda_MaxVecNorm (M_buffer s)) 0
          then Fatal "need to initialize magnetization first" s
          else Ok tt s)
  /\ (fatal (checkM DevPtr_is_nil cuda_MaxVecNorm s) = None ->
      fatal (GridSize s) = None /\ fatal (CellSize s) = None
      /\ fatal (WorldSize s) = None).
Proof.
  assert (checkM DevPtr_is_nil cuda_MaxVecNorm s
          = (if mesh_unset s then Fatal "need to set mesh first" s
             else if DevPtr_is_nil (M_buffer s) 0
                     || Go.float64_eqb (cuda_MaxVecNorm (M_buffer s)) 0
                  then Fatal "need to initialize magnetization first" s
                  else Ok tt s)) as Heq.
  { unfold checkM, checkMesh, mesh_unset, bind, gets, log_Fatal, ret.
    destruct (Go.int3_eqb _ _); [reflexivity|].
    destruct (DevPtr_is_nil (M_buffer s) 0); [reflexivity|].
    by destruct (Go.float64_eqb _ _). }
  split; [exact Heq|]. rewrite Heq.
  destruct (mesh_unset s) eqn:Hm; [discriminate|]. intros _.
  by rewrite GridSize_eq, CellSize_eq, WorldSize_eq.
Qed.

End CheckM.

(** ** Many evaluations *)

Lemma wrap_wrap (a b : Z) : Go.wrap (Go.wrap a + b) = Go.wrap (a + b).
Proof.
  unfold Go.wrap. f_equal.
  replace ((a + 2 ^ 63) mod 2 ^ 64 - 2 ^ 63 + b + 2 ^ 63)
    with ((a + 2 ^ 63) mod 2 ^ 64 + b) by lia.
  rewrite Zplus_mod_idemp_l. f_equal. lia.
Qed.

Lemma wrap_range (z : Z) : Go.int_min <= Go.wrap z <= Go.int_max.
Proof.
  unfold Go.wrap, Go.int_min, Go.int_max.
  pose proof (Z.mod_pos_bound (z + 2 ^ 63) (2 ^ 64) ltac:(lia)). lia.
Qed.

Lemma wrap_small (z : Z) : Go.int_min <= z <= Go.int_max -> Go.wrap z = z.
Proof.
  unfold Go.wrap, Go.int_min, Go.int_max. intros Hz.
  rewrite Z.mod_small by lia. lia.
Qed.

Lemma table_events_app (a b : list event) :
  table_events (a ++ b) = table_events a ++ table_events b.
Proof. apply List.filter_app. Qed.

Lemma table_events_pipeline (evs : list event) :
  forallb is_pipeline_event evs = true -> table_events evs = [].
Proof.
  induction evs as [|e evs IH]; [reflexivity|]. cbn [forallb].
  intros [He Hevs]%andb_true_iff. unfold table_events. cbn [List.filter].
  rewrite He. cbn [negb]. by apply IH.
Qed.

Lemma table_events_tick (s : state) (c : bool) :
  table_events (arming c ++ Torque_events s c ++ [EvTouch c])
  = arming c ++ [EvTouch c].
Proof.
  rewrite !table_events_app, (table_events_pipeline (Torque_events s c))
    by apply pipeline_Torque_events.
  reflexivity.
Qed.

(** With [Msat()] not zero, any run of evaluations returns.  It leaves
    the magnetization buffer as it was, raises the time stamp by the
    number of evaluations (modulo the width of [int]), and for every
    evaluation, in order, the table was armed and the three quantities
    notified before the pipeline ran and the table was sampled after it,
    with the [cansave] flag of that evaluation: arming and sampling
    alternate. *)
Theorem evaluations_count (cs : list bool) (s : state) :
  Msat_is_zero s = false ->
  Go.int_min <= itime s <= Go.int_max ->
  let o := evaluations cs s in
  fatal o = None
  /\ itime (final o) = Go.wrap (itime s + Z.of_nat (length cs))
  /\ M_buffer (final o) = M_buffer s
  /\ table_events (trace (final o))
     = table_events (trace s) ++ concat (map (fun c => arming c ++ [EvTouch c]) cs).
Proof.
  revert s. induction cs as [|c cs IH]; intros s Hz Hr o; subst o.
  - cbn [evaluations ret fatal final length map concat]. rewrite app_nil_r.
    repeat split. rewrite Z.add_0_r. symmetry. by apply wrap_small.
  - cbn [evaluations]. unfold bind. rewrite torqueFn_ok by exact Hz.
    destruct (IH (after_tick c s) Hz (wrap_range _)) as (Hf & Hi & Hm & Ht).
    split; [exact Hf|]. split; [|split].
    + rewrite Hi. change (itime (after_tick c s)) with (Go.wrap (itime s + 1)).
      rewrite wrap_wrap. f_equal. cbn [length]. lia.
    + rewrite Hm. reflexivity.
    + rewrite Ht.
      change (trace (after_tick c s))
        with (trace s ++ arming c ++ Torque_events s c ++ [EvTouch c]).
      rewrite table_events_app, table_events_tick. cbn [map concat].
      by rewrite <- !app_assoc.
Qed.

End Proofs.

(** * Concrete runs *)

Section Runs.

Local Open Scope run_scope.

Lemma setters_ignore_cansave_witness :
  In B_eff [B_demag; B_eff; LLTorque; Torque]
  /\ same_outcome (set B_eff (Sym.Given 0) true ready)
       (set B_eff (Sym.Given 0) false ready).
Proof.
  split; [right; left; reflexivity|].
  apply (proj1 (setters_ignore_cansave ready (Sym.Given 0))).
  right; left; reflexivity.
Defined.

Lemma accessors_after_SetMesh_witness :
  1 < 4 /\ GridSize mesh_set = Ok (Go.Arr3 4 4 1) mesh_set.
Proof.
  split; [lia|].
  exact (proj1 (proj2 (proj2
           (accessors_after_SetMesh init_state 4 4 1 1e-9 1e-9 1e-9 ltac:(lia))))).
Defined.

Lemma zero_skip_witness :
  J mesh_set tt = (Go.Arr3 0 0 0)%float
  /\ addTo STTorque (Sym.Given 0) true mesh_set
     = Ok (Sym.Given 0) (log [EvRegister "sttorque"] mesh_set).
Proof.
  split; [reflexivity|].
  exact (proj2 (proj1 (zero_skip mesh_set (Sym.Given 0) true) eq_refl)).
Defined.





(** C3, the claim as written fails: [B_uni.addTo] and [STTorque.addTo]
    have no check of their own.  Called on their own with the initial
    [Msat] of zero, the first runs its kernel, and with a current density
    of [(1, 0, 0)] so does the second, which hands the zero [Msat] to the
    kernel.  No fatal error is raised. *)
Lemma sanitycheck_missing :
  let s := set_J (ConstVector 1 0 0) mesh_set in
  Msat_is_zero s = true
  /\ kernels_of (trace s) = []
  /\ fatal (addTo B_uni (Sym.Given 0) false s) = None
  /\ kernels_of (trace (final (addTo B_uni (Sym.Given 0) false s)))
     = [KAddUniaxialAnisotropy]
  /\ value (addTo STTorque (Sym.Given 0) false s)
     = Some (Sym.AddZhangLiTorque (Sym.Given 0) (M_buffer s) (Go.Arr3 0 0 1)%float
               0 Sym.Nil 0 0)
  /\ kernels_of (trace (final (addTo STTorque (Sym.Given 0) false s)))
     = [KAddZhangLiTorque].
Proof. vm_compute. repeat split. Qed.

(** C4, evaluated where the code departs from it: a second [SetMesh]
    on a state whose mesh is set returns like the first and replaces
    the mesh. *)
Theorem SetMesh_twice :
  mesh_unset mesh_set = false
  /\ value (GridSize mesh_set) = Some (Go.Arr3 4 4 1)
  /\ fatal (SetMesh 8 2 2 1 1 1 mesh_set) = None
  /\ value (GridSize (final (SetMesh 8 2 2 1 1 1 mesh_set))) = Some (Go.Arr3 8 2 2)
  /\ (let lazy := setCellSize 1 1 1 ;;; setGridSize 4 4 1 ;;; setGridSize 8 2 2 in
      fatal (lazy init_state) = None
      /\ value (GridSize (final (lazy init_state))) = Some (Go.Arr3 8 2 2)
      /\ trace (final (lazy init_state))
         = [EvPrintln "set mesh: mesh"; EvPrintln "set mesh: mesh"]).
Proof. vm_compute. repeat split. Qed.

(** C8, evaluated where the code departs from it: [Ku1] is written
    while [Msat] still has its initial value of zero, then [Msat] is
    set to 8e5.  Nothing recomputes [ku1_red]: it keeps the quotient by
    zero, where the claim has 1.25e-3. *)
Theorem ku1_red_stale_after_Msat :
  let s1 := final (SetRegion Var_Ku1 0 1e3 mesh_set) in
  let s2 := set_Msat (Const 8e5) s1 in
  fatal (SetRegion Var_Ku1 0 1e3 mesh_set) = None
  /\ value (GetRegion Var_Ku1 0 s2) = Some 1e3%float
  /\ Msat s2 tt = 8e5%float
  /\ value (GetRegion Var_ku1_red 0 s2) = Some infinity
  /\ (1e3 / 8e5 = 1.25e-3)%float.
Proof. vm_compute. repeat split. Qed.

(** The regions of the spec's example, written after [Msat]: the rows
    of [ku1_red] read 1.25e-3 and 2.5e-3. *)
Lemma Ku1_write_recomputes_witness :
  post_update (Ku1 ready) = Some Ku1_hook
  /\ value (GetRegion Var_ku1_red 0 (final (SetRegion Var_Ku1 0 1e3 ready)))
     = Some 1.25e-3%float.
Proof.
  split; [reflexivity|].
  refine (proj2 (proj2 (Ku1_write_recomputes ready 0 1e3 eq_refl _ _ _))).
  - lia.
  - vm_compute. lia.
  - vm_compute. lia.
Defined.

Theorem ku1_red_two_regions :
  let s := final ((SetRegion Var_Ku1 0 1e3 ;;; SetRegion Var_Ku1 1 2e3) ready) in
  value (GetRegion Var_ku1_red 0 s) = Some 1.25e-3%float
  /\ value (GetRegion Var_ku1_red 1 s) = Some 2.5e-3%float.
Proof. vm_compute. repeat split. Qed.

Lemma Msat_checked_in_pipeline_witness :
  Msat_is_zero mesh_set = true
  /\ addTo B_exch (Sym.Given 0) true mesh_set = Fatal "Msat should be nonzero" mesh_set.
Proof.
  split; [reflexivity|].
  exact (proj1 (proj2 (Msat_checked_in_pipeline mesh_set (Sym.Given 0) true eq_refl))).
Defined.

(** ** Concrete runs of the further properties *)

Lemma mesh_needed_first_witness :
  mesh_unset init_state = true
  /\ GridSize init_state = Fatal "need to set mesh first" init_state.
Proof.
  split; [reflexivity|].
  exact (proj1 (proj2 (proj2 (proj2 (mesh_needed_first init_state eq_refl))))).
Defined.

Lemma counts_after_SetMesh_witness :
  1 < 4 /\ Nx mesh_set = Ok 4 mesh_set.
Proof.
  split; [lia|].
  exact (proj1 (counts_after_SetMesh init_state 4 4 1 1e-9 1e-9 1e-9 ltac:(lia))).
Defined.

Lemma lazy_SetMesh_witness :
  gridsize init_state = None /\ cellsize init_state = None
  /\ (setCellSize 1e-9 1e-9 1e-9 ;;; setGridSize 4 4 1) init_state
     = SetMesh 4 4 1 1e-9 1e-9 1e-9
         (set_cellsize (Some (Go.Arr3 1e-9 1e-9 1e-9)%float)
            (set_gridsize (Some (Go.Arr3 4 4 1)) init_state)).
Proof.
  split; [reflexivity|]. split; [reflexivity|].
  exact (proj2 (proj2 (proj2
           (lazy_SetMesh init_state 4 4 1 1e-9 1e-9 1e-9 eq_refl eq_refl)))).
Defined.

Lemma lazy_SetMesh_late_check_witness :
  gridsize init_state = None /\ cellsize init_state = None /\ 1 <= 1
  /\ fatal ((setGridSize 1 4 4 ;;; setCellSize 1e-9 1e-9 1e-9) init_state)
     = Some ("mesh size X should be > 1, have: " +:+ pretty 1).
Proof.
  split; [reflexivity|]. split; [reflexivity|]. split; [lia|].
  exact (proj1 (proj2
           (lazy_SetMesh_late_check init_state 1 4 4 1e-9 1e-9 1e-9
              eq_refl eq_refl ltac:(lia)))).
Defined.

Lemma SetMesh_keeps_inputs_witness :
  1 < 4 /\ Msat (final (SetMesh 4 4 1 1e-9 1e-9 1e-9 ready)) = Msat ready.
Proof.
  split; [lia|].
  exact (proj1 (proj2 (proj1
           (SetMesh_keeps_inputs ready 4 4 1 1e-9 1e-9 1e-9 ltac:(lia))))).
Defined.

Lemma registry_after_SetMesh_witness :
  1 < 4 /\ "torque" ∈ Quants mesh_set.
Proof.
  split; [lia|].
  apply (proj1 (registry_after_SetMesh init_state 4 4 1 1e-9 1e-9 1e-9 ltac:(lia))).
  left. unfold registered. set_solver.
Defined.

Lemma Torque_composition_witness :
  Msat_is_zero ready = false
  /\ exists b evs,
       set B_eff (Sym.Given 0) true ready = Ok b (log evs ready)
       /\ value (set LLTorque (Sym.Given 0) true ready)
          = Some (Sym.LLTorque b (M_buffer ready) b 0).
Proof.
  split; [reflexivity|].
  destruct (Torque_composition ready (Sym.Given 0) true eq_refl)
    as (b & evs & Hb & Hll & _).
  exists b, evs. split; [exact Hb | exact Hll].
Defined.


Lemma NaN_is_not_zero_witness :
  Msat (set_Msat (Const nan) mesh_set) tt = nan
  /\ fatal (torqueFn false (set_Msat (Const nan) mesh_set)) = None.
Proof.
  split; [reflexivity|].
  exact (proj1 (NaN_is_not_zero (set_Msat (Const nan) mesh_set) (Sym.Given 0) false)
           eq_refl).
Defined.

Lemma checkM_cases_witness :
  fatal (checkM sym_DevPtr_is_nil sym_MaxVecNorm ready) = None
  /\ fatal (GridSize ready) = None.
Proof.
  assert (fatal (checkM sym_DevPtr_is_nil sym_MaxVecNorm ready) = None) as Hm
    by reflexivity.
  split; [exact Hm|].
  exact (proj1 (proj2 (checkM_cases sym_DevPtr_is_nil sym_MaxVecNorm ready) Hm)).
Defined.

Lemma quantities_only_log_witness :
  In Torque [B_demag; B_eff; LLTorque; Torque]
  /\ exists evs, final (set Torque (Sym.Given 0) true ready) = log evs ready
                 /\ forallb is_pipeline_event evs = true.
Proof.
  assert (In Torque [B_demag; B_eff; LLTorque; Torque]) as Hin
    by (do 3 right; left; reflexivity).
  split; [exact Hin|].
  exact (proj1 (quantities_only_log ready (Sym.Given 0) true) Torque Hin).
Defined.

Lemma evaluations_count_witness :
  Msat_is_zero ready = false
  /\ Go.int_min <= itime ready <= Go.int_max
  /\ itime (final (evaluations [true; false] ready)) = 2.
Proof.
  assert (Go.int_min <= itime ready <= Go.int_max) as Hr
    by (unfold Go.int_min, Go.int_max; change (itime ready) with 0; lia).
  split; [reflexivity|]. split; [exact Hr|].
  exact (proj1 (proj2 (evaluations_count [true; false] ready eq_refl Hr))).
Defined.

Lemma AddExtField_adds_last_witness :
  value (addFn b_ext (Sym.Given 0) ready) = Some (Sym.AddConst (Sym.Given 0) 0 0 0)
  /\ value (addFn b_ext (Sym.Given 0)
              (final (AddExtField (Sym.Given 1) (Const 2) ready)))
     = Some (Sym.Madd2 (Sym.AddConst (Sym.Given 0) 0 0 0)
               (Sym.AddConst (Sym.Given 0) 0 0 0) (Sym.Copy (Sym.Given 1)) 1 2).
Proof.
  assert (value (addFn b_ext (Sym.Given 0) ready)
          = Some (Sym.AddConst (Sym.Given 0) 0 0 0)) as Hb by reflexivity.
  split; [exact Hb|].
  exact (proj1 (proj2 (proj2 (proj2
           (AddExtField_adds_last ready (Sym.Given 1) (Const 2) (Sym.Given 0) false))))
           _ Hb).
Defined.

End Runs.
